(** * MoveCRM: quote pricing, catalog matching, quote numbering,
      rate limiting and detection reconciliation

    A shallow embedding of the backend's core routines
    ([src/backend/src/routes/quotes.py], [routes/detection.py],
    [utils/rate_limiter.py], with the column types of
    [src/backend/src/models/__init__.py]) and the properties they have. *)

From Stdlib Require Import PrimFloat FloatOps.
From Stdlib Require Import ZArith List String Ascii Bool Lia Uint63.
Import ListNotations.

Local Open Scope Z_scope.

#[local] Set Warnings "-inexact-float".

(* ================================================================= *)
(** ** Python's [decimal.Decimal] under the default context *)

(** A finite [Decimal] is a signed coefficient and an exponent; its value is
    [coef * 10 ^ dexp].  Arithmetic computes the exact result and then rounds
    it to the context precision (28 significant digits, ROUND_HALF_EVEN).
    Comparison is exact.  The sign of a zero, NaN and infinities, and the
    exponent limits (Emax = 999999) are outside the model: the values here
    come from [Numeric(p, 2)] columns and from [Decimal(str(x))]. *)
Module Dec.

Record Decimal : Type := mkDec { coef : Z; dexp : Z }.

Definition prec : Z := 28.

Fixpoint ndigits_aux (fuel : nat) (n : Z) : Z :=
  match fuel with
  | O => 0
  | S fuel' => if n =? 0 then 0 else 1 + ndigits_aux fuel' (n / 10)
  end.

(** Number of decimal digits of [|n|] (0 for 0). *)
Definition ndigits (n : Z) : Z :=
  ndigits_aux (S (Z.to_nat (Z.log2 (Z.abs n)))) (Z.abs n).

(** [round_half_even c k]: drop the last [k] digits of [c]. *)
Definition round_half_even (c k : Z) : Z :=
  let p := 10 ^ k in
  let q := Z.abs c / p in
  let r := Z.abs c mod p in
  let q' := if (p <? 2 * r) || ((p =? 2 * r) && Z.odd q) then q + 1 else q in
  Z.sgn c * q'.

(** [Decimal._fix]: round to [prec] digits when the coefficient is longer. *)
Definition fix_prec (d : Decimal) : Decimal :=
  let n := ndigits (coef d) in
  if n <=? prec then d
  else
    let k := n - prec in
    let c' := round_half_even (coef d) k in
    if Z.abs c' =? 10 ^ prec then mkDec (c' / 10) (dexp d + k + 1)
    else mkDec c' (dexp d + k).

Definition add_exact (a b : Decimal) : Decimal :=
  let e := Z.min (dexp a) (dexp b) in
  mkDec (coef a * 10 ^ (dexp a - e) + coef b * 10 ^ (dexp b - e)) e.

Definition mul_exact (a b : Decimal) : Decimal :=
  mkDec (coef a * coef b) (dexp a + dexp b).

(** [a + b] *)
Definition add (a b : Decimal) : Decimal := fix_prec (add_exact a b).

(** [a * b] *)
Definition mul (a b : Decimal) : Decimal := fix_prec (mul_exact a b).

(** [Decimal(n)] for a Python int: exact. *)
Definition of_int (n : Z) : Decimal := mkDec n 0.

(** [a * n] with [n] a Python int. *)
Definition mul_int (a : Decimal) (n : Z) : Decimal := mul a (of_int n).

(** The two coefficients brought to the common (smaller) exponent. *)
Definition aligned (a b : Decimal) : Z * Z :=
  let e := Z.min (dexp a) (dexp b) in
  (coef a * 10 ^ (dexp a - e), coef b * 10 ^ (dexp b - e)).

(** [a < b] *)
Definition ltb (a b : Decimal) : bool :=
  let (x, y) := aligned a b in x <? y.

(** [a == b] *)
Definition eqb (a b : Decimal) : bool :=
  let (x, y) := aligned a b in x =? y.


(** [bool(a)] *)
Definition truthy (a : Decimal) : bool := negb (coef a =? 0).

(** [max(a, b)] as the spec writes it; Python's builtin returns its first
    argument unless the second is strictly greater. *)
Definition max (a b : Decimal) : Decimal := if ltb a b then b else a.

Definition zero : Decimal := mkDec 0 0.   (* Decimal('0') *)

(** [represents d N s]: the value of [d] is [N * 10 ^ (- s)].  It is what
    [d == Decimal((sign, digits of N, -s))] tests. *)
Definition represents (d : Decimal) (N s : Z) : Prop :=
  coef d * 10 ^ Z.max 0 (dexp d + s) = N * 10 ^ Z.max 0 (- (dexp d + s)).

End Dec.

Abbreviation Decimal := Dec.Decimal.
Abbreviation mkDec := Dec.mkDec.

(* ================================================================= *)
(** ** Pricing calculator ([routes/quotes.py], [calculate_quote_pricing]) *)

Module Pricing.

(** [QuoteItem]: the nullable [Numeric] columns the calculator guards with
    a truthiness test are options; [quantity] is used unguarded. *)
Record QuoteItem : Type := mkQuoteItem {
  detected_name : option string;
  quantity : Z;
  cubic_feet : option Decimal;
  labor_hours : option Decimal;
  unit_price : option Decimal;
  total_price : option Decimal
}.

(** [PricingRule]: the rates and the minimum charge are used unguarded;
    the distance rate is tested for truthiness. *)
Record PricingRule : Type := mkPricingRule {
  rate_per_cubic_foot : Decimal;
  labor_rate_per_hour : Decimal;
  minimum_charge : Decimal;
  distance_rate_per_mile : option Decimal
}.

(** [Quote]: the line items, the distance and the five derived totals. *)
Record Quote : Type := mkQuote {
  quote_items : list QuoteItem;
  distance_miles : option Decimal;
  total_cubic_feet : Decimal;
  total_labor_hours : Decimal;
  subtotal : Decimal;
  tax_amount : Decimal;
  total_amount : Decimal
}.

(** The three accumulators of the loop: [total_cubic_feet],
    [total_labor_hours] and the local [subtotal]. *)
Definition acc : Type := (Decimal * Decimal * Decimal)%type.

(** One iteration of [for item in quote.quote_items]. *)
Definition loop_body (a : acc) (item : QuoteItem) : acc :=
  let '(cf, lh, sub) := a in
  let cf' :=
    match cubic_feet item with
    | Some c => if Dec.truthy c then Dec.add cf (Dec.mul_int c (quantity item)) else cf
    | None => cf
    end in
  let lh' :=
    match labor_hours item with
    | Some h => if Dec.truthy h then Dec.add lh (Dec.mul_int h (quantity item)) else lh
    | None => lh
    end in
  let sub' :=
    match total_price item with
    | Some p => if Dec.truthy p then Dec.add sub p else sub
    | None => sub
    end in
  (cf', lh', sub').

Definition loop (items : list QuoteItem) : acc :=
  fold_left loop_body items (Dec.zero, Dec.zero, Dec.zero).

Definition tax_rate : Decimal := mkDec 85 (-3).   (* Decimal('0.085') *)

Definition cubic_feet_cost (q : Quote) (r : PricingRule) : Decimal :=
  let '(cf, _, _) := loop (quote_items q) in
  Dec.mul cf (rate_per_cubic_foot r).

Definition labor_cost (q : Quote) (r : PricingRule) : Decimal :=
  let '(_, lh, _) := loop (quote_items q) in
  Dec.mul lh (labor_rate_per_hour r).

Definition distance_cost (q : Quote) (r : PricingRule) : Decimal :=
  match distance_miles q, distance_rate_per_mile r with
  | Some d, Some rate =>
      if Dec.truthy d && Dec.truthy rate then Dec.mul d rate else Dec.zero
  | _, _ => Dec.zero
  end.

(** [cubic_feet_cost + labor_cost + distance_cost], before the minimum. *)
Definition computed_cost (q : Quote) (r : PricingRule) : Decimal :=
  Dec.add (Dec.add (cubic_feet_cost q r) (labor_cost q r)) (distance_cost q r).

Definition calculate_quote_pricing (q : Quote) (r : PricingRule) : Quote :=
  let '(total_cubic_feet, total_labor_hours, _subtotal) := loop (quote_items q) in
  let cubic_feet_cost := Dec.mul total_cubic_feet (rate_per_cubic_foot r) in
  let labor_cost := Dec.mul total_labor_hours (labor_rate_per_hour r) in
  let distance_cost := distance_cost q r in
  let calculated_subtotal :=
    Dec.add (Dec.add cubic_feet_cost labor_cost) distance_cost in
  let calculated_subtotal :=
    if Dec.ltb calculated_subtotal (minimum_charge r)
    then minimum_charge r else calculated_subtotal in
  let tax := Dec.mul calculated_subtotal tax_rate in
  {| quote_items := quote_items q;
     distance_miles := distance_miles q;
     total_cubic_feet := total_cubic_feet;
     total_labor_hours := total_labor_hours;
     subtotal := calculated_subtotal;
     tax_amount := tax;
     total_amount := Dec.add calculated_subtotal tax |}.

(** Two line items that differ at most in their price fields (and name). *)
Definition same_measures (a b : QuoteItem) : Prop :=
  quantity a = quantity b /\ cubic_feet a = cubic_feet b
  /\ labor_hours a = labor_hours b.

(** The rule of the spec's scenarios:
    [{rate_per_cubic_foot: 8.50, labor_rate_per_hour: 85.00,
      minimum_charge: 150.00, distance_rate_per_mile: 2.50}]. *)
Definition scenario_rule : PricingRule :=
  {| rate_per_cubic_foot := mkDec 850 (-2);
     labor_rate_per_hour := mkDec 8500 (-2);
     minimum_charge := mkDec 15000 (-2);
     distance_rate_per_mile := Some (mkDec 250 (-2)) |}.

(** A quote with the given stored line items and distance, totals unset. *)
Definition quote_with (items : list QuoteItem) (distance : option Decimal) : Quote :=
  {| quote_items := items; distance_miles := distance;
     total_cubic_feet := Dec.zero; total_labor_hours := Dec.zero;
     subtotal := Dec.zero; tax_amount := Dec.zero; total_amount := Dec.zero |}.

End Pricing.

(* ================================================================= *)
(** ** Python strings, restricted to ASCII *)

Module PyStr.

Local Open Scope string_scope.

Definition is_upper (c : ascii) : bool :=
  let n := nat_of_ascii c in (Nat.leb 65 n && Nat.leb n 90)%bool.

Definition lower_char (c : ascii) : ascii :=
  if is_upper c then ascii_of_nat (nat_of_ascii c + 32) else c.

(** [s.lower()] *)
Fixpoint lower (s : string) : string :=
  match s with
  | EmptyString => EmptyString
  | String c r => String (lower_char c) (lower r)
  end.

(** [needle in hay]: substring test; the empty string is in every string. *)
Fixpoint contains (needle hay : string) : bool :=
  (String.prefix needle hay ||
   match hay with
   | EmptyString => false
   | String _ r => contains needle r
   end)%bool.

(** [s[n:]] *)
Fixpoint drop (n : nat) (s : string) : string :=
  match n, s with
  | O, _ => s
  | S n', String _ r => drop n' r
  | S _, EmptyString => EmptyString
  end.

Fixpoint rev_append (s acc : string) : string :=
  match s with
  | EmptyString => acc
  | String c r => rev_append r (String c acc)
  end.

Definition rev (s : string) : string := rev_append s EmptyString.

(** [str.isspace] on one ASCII character: tab, LF, VT, FF, CR, the four
    separators 0x1c-0x1f and the space. *)
Definition is_space (c : ascii) : bool :=
  let n := nat_of_ascii c in
  ((Nat.leb 9 n && Nat.leb n 13) || (Nat.leb 28 n && Nat.leb n 32))%bool.

Fixpoint lstrip (s : string) : string :=
  match s with
  | String c r => if is_space c then lstrip r else s
  | EmptyString => EmptyString
  end.

(** [s.strip()] *)
Definition strip (s : string) : string := rev (lstrip (rev (lstrip s))).

Definition is_digit (c : ascii) : bool :=
  let n := nat_of_ascii c in (Nat.leb 48 n && Nat.leb n 57)%bool.

Definition digit_val (c : ascii) : Z := Z.of_nat (nat_of_ascii c) - 48.

(** The digits of an integer literal: at least one digit, single underscores
    only between digits. *)
Fixpoint parse_digits (s : string) (acc : Z) (after_digit : bool) : option Z :=
  match s with
  | EmptyString => if after_digit then Some acc else None
  | String c r =>
      if is_digit c then parse_digits r (10 * acc + digit_val c) true
      else if Ascii.eqb c "_" then
        if after_digit then parse_digits r acc false else None
      else None
  end.

(** [int(s)]: [None] stands for ValueError. *)
Definition py_int (s : string) : option Z :=
  match strip s with
  | String c r =>
      if Ascii.eqb c "+" then parse_digits r 0 false
      else if Ascii.eqb c "-" then option_map Z.opp (parse_digits r 0 false)
      else parse_digits (String c r) 0 false
  | EmptyString => None
  end.

Definition digit_char (d : Z) : ascii := ascii_of_nat (48 + Z.to_nat d).

Fixpoint digits_aux (fuel : nat) (n : Z) (acc : string) : string :=
  match fuel with
  | O => acc
  | S fuel' =>
      let acc' := String (digit_char (n mod 10)) acc in
      if (n / 10 =? 0)%Z then acc' else digits_aux fuel' (n / 10) acc'
  end.

(** [str(n)] for [0 <= n]. *)
Definition str_nonneg (n : Z) : string :=
  digits_aux (S (Z.to_nat (Z.log2 n))) n EmptyString.

Fixpoint zeros (n : nat) : string :=
  match n with
  | O => EmptyString
  | S n' => String "0" (zeros n')
  end.

(** [f"{n:0wd}"]: sign-aware zero padding to width [w]. *)
Definition format_0d (w : nat) (n : Z) : string :=
  let digits := str_nonneg (Z.abs n) in
  let sign := if (n <? 0)%Z then "-" else "" in
  sign ++ zeros (w - String.length sign - String.length digits) ++ digits.

(** [f"{n}"] *)
Definition format_d (n : Z) : string := format_0d 0 n.

End PyStr.

(** [datetime]: the naive local time [datetime.now()] returns. *)
Record datetime : Type := mkDatetime {
  year : Z; month : Z; day : Z;
  hour : Z; minute : Z; second : Z; microsecond : Z
}.

(* ================================================================= *)
(** ** Quote sequence generator ([routes/quotes.py], [generate_quote_number];
       [routes/public.py] has the same function) *)

Module QuoteNumber.

Local Open Scope string_scope.

(** The columns of a [quotes] row the generator reads. *)
Record QuoteRow : Type := mkQuoteRow {
  tenant_id : string;
  quote_number : string
}.

(** [prefix = f"Q{now.year}{now.month:02d}"] *)
Definition prefix_of (now : datetime) : string :=
  "Q" ++ PyStr.format_d (year now) ++ PyStr.format_0d 2 (month now).

(** [Quote.query.filter(tenant_id == t, quote_number.like(prefix%))]: the
    prefix holds no LIKE wildcard, so the pattern is a prefix test. *)
Definition matching (tenant : string) (prefix : string) (table : list QuoteRow)
  : list QuoteRow :=
  filter (fun q => String.eqb (tenant_id q) tenant
                   && String.prefix prefix (quote_number q))%bool table.

(** [.order_by(quote_number.desc()).first()]: a row with the greatest
    number, in the order of the character codes. *)
Definition first_desc (rows : list QuoteRow) : option QuoteRow :=
  fold_left (fun best q =>
               match best with
               | None => Some q
               | Some b => if String.ltb (quote_number b) (quote_number q)
                           then Some q else Some b
               end) rows None.

Definition generate_quote_number (now : datetime) (tenant : string)
  (table : list QuoteRow) : string :=
  let prefix := prefix_of now in
  let latest_quote := first_desc (matching tenant prefix table) in
  let sequence :=
    match latest_quote with
    | Some q =>
        match PyStr.py_int (PyStr.drop (String.length prefix) (quote_number q)) with
        | Some n => n + 1
        | None => 1
        end
    | None => 1
    end in
  prefix ++ PyStr.format_0d 4 sequence.

(** *** Callers interleaved on one database

    A caller generates a number (a read of the table) and later commits the
    quote carrying it.  [quote_number] is declared [unique=True]: a commit
    whose number is already in the table is rejected. *)
Inductive event : Type :=
| Generate (caller : nat) (tenant : string)
| Commit (caller : nat).

Record state : Type := mkState {
  table : list QuoteRow;
  pending : list (nat * QuoteRow);        (* generated, not yet committed *)
  returned : list (nat * string * string) (* caller, tenant, number handed out *)
}.

Fixpoint lookup_pending (c : nat) (l : list (nat * QuoteRow)) : option QuoteRow :=
  match l with
  | [] => None
  | (c', q) :: r => if Nat.eqb c c' then Some q else lookup_pending c r
  end.

Definition number_taken (n : string) (t : list QuoteRow) : bool :=
  existsb (fun q => String.eqb (quote_number q) n) t.

Definition step (now : datetime) (st : state) (e : event) : state :=
  match e with
  | Generate c tenant =>
      let n := generate_quote_number now tenant (table st) in
      {| table := table st;
         pending := (c, mkQuoteRow tenant n) :: pending st;
         returned := returned st ++ [(c, tenant, n)] |}
  | Commit c =>
      match lookup_pending c (pending st) with
      | Some q =>
          if number_taken (quote_number q) (table st) then st
          else {| table := table st ++ [q];
                  pending := pending st;
                  returned := returned st |}
      | None => st
      end
  end.

Definition run (now : datetime) (events : list event) (st : state) : state :=
  fold_left (step now) events st.

Definition initial (t : list QuoteRow) : state :=
  {| table := t; pending := []; returned := [] |}.

(** The numbers handed out for one tenant, in order. *)
Definition numbers_for (tenant : string) (st : state) : list string :=
  map snd (filter (fun r => String.eqb (snd (fst r)) tenant) (returned st)).

End QuoteNumber.

(* ================================================================= *)
(** ** Python floats *)

Module PyFloat.

(** Nearest binary64 to the positive rational [n / d], ties to even. *)
Definition float_of_ratio (n d : Z) : float :=
  let e0 := Z.log2 n - Z.log2 d in
  let e := if d * 2 ^ Z.max 0 e0 <=? n * 2 ^ Z.max 0 (- e0) then e0 else e0 - 1 in
  let sh := 52 - Z.max e (-1022) in
  let num := n * 2 ^ Z.max 0 sh in
  let den := d * 2 ^ Z.max 0 (- sh) in
  let q := num / den in
  let r := num mod den in
  let m := if (den <? 2 * r) || ((den =? 2 * r) && Z.odd q) then q + 1 else q in
  if 1024 <=? e then PrimFloat.infinity
  else FloatOps.Z.ldexp (PrimFloat.of_uint63 (Uint63.of_Z m)) (- sh).

(** [float(d)] for a Decimal: the correctly rounded binary64. *)
Definition float_of_decimal (d : Decimal) : float :=
  let c := Dec.coef d in
  let e := Dec.dexp d in
  if c =? 0 then PrimFloat.zero
  else
    let f := float_of_ratio (Z.abs c * 10 ^ Z.max 0 e) (10 ^ Z.max 0 (- e)) in
    if c <? 0 then PrimFloat.opp f else f.

(** [a > b] *)
Definition gt (a b : float) : bool := PrimFloat.ltb b a.

(** [a < b] *)
Definition lt (a b : float) : bool := PrimFloat.ltb a b.

End PyFloat.

(* ================================================================= *)
(** ** Python values

    What [response.json()] hands to the detection routes is an arbitrary
    JSON document: the operations the routes apply to it ([.get],
    [.lower()], iteration, truthiness, [>]) raise on the values they do not
    fit. *)

Module Py.

Local Open Scope string_scope.

#[local] Set Warnings "-register-all".

Inductive value : Type :=
| VNone
| VBool (b : bool)
| VInt (z : Z)
| VFloat (f : float)
| VStr (s : string)
| VList (l : list value)
| VDict (items : list (string * value)).

(** The exceptions the routes can meet, with the text [str(e)] gives. *)
Inductive exn : Type :=
| AttributeError (msg : string)
| TypeError (msg : string)
| Exception (msg : string).

Definition str (e : exn) : string :=
  match e with
  | AttributeError msg => msg
  | TypeError msg => msg
  | Exception msg => msg
  end.

Inductive result (A : Type) : Type :=
| Ok (a : A)
| Raise (e : exn).

Arguments Ok {A} a.
Arguments Raise {A} e.

Definition bind {A B : Type} (m : result A) (f : A -> result B) : result B :=
  match m with
  | Ok a => f a
  | Raise e => Raise e
  end.

(** [type(v).__name__] *)
Definition type_name (v : value) : string :=
  match v with
  | VNone => "NoneType"
  | VBool _ => "bool"
  | VInt _ => "int"
  | VFloat _ => "float"
  | VStr _ => "str"
  | VList _ => "list"
  | VDict _ => "dict"
  end.

(** The binding of a key in a dict (its keys are distinct). *)
Fixpoint lookup (key : string) (items : list (string * value)) : option value :=
  match items with
  | [] => None
  | (k, v) :: rest => if String.eqb k key then Some v else lookup key rest
  end.

Definition no_attribute (v : value) (attr : string) : exn :=
  AttributeError
    ("'" ++ type_name v ++ "' object has no attribute '" ++ attr ++ "'").

(** [d.get(key, default)]: only a dict has the method. *)
Definition get (d : value) (key : string) (default : value) : result value :=
  match d with
  | VDict items =>
      Ok (match lookup key items with
          | Some v => v
          | None => default
          end)
  | _ => Raise (no_attribute d "get")
  end.

(** [v.lower()]: only a str has the method. *)
Definition lower (v : value) : result string :=
  match v with
  | VStr s => Ok (PyStr.lower s)
  | _ => Raise (no_attribute v "lower")
  end.

(** [for x in v]: the elements of a list, the keys of a dict, the
    characters of a str. *)
Definition iter (v : value) : result (list value) :=
  match v with
  | VList l => Ok l
  | VDict items => Ok (map (fun kv => VStr (fst kv)) items)
  | VStr s =>
      Ok (map (fun c => VStr (String c EmptyString)) (list_ascii_of_string s))
  | _ => Raise (TypeError ("'" ++ type_name v ++ "' object is not iterable"))
  end.

(** [bool(v)] *)
Definition truthy (v : value) : bool :=
  match v with
  | VNone => false
  | VBool b => b
  | VInt z => negb (z =? 0)%Z
  | VFloat f => negb (PrimFloat.eqb f PrimFloat.zero)
  | VStr s => negb (String.eqb s EmptyString)
  | VList l => match l with [] => false | _ :: _ => true end
  | VDict items => match items with [] => false | _ :: _ => true end
  end.

(** [z > t] for an int and a float: the comparison is exact, so [z > t]
    says that [z] is above the floor of [t]. *)
Definition int_gt_float (z : Z) (t : float) : bool :=
  match Prim2SF t with
  | SpecFloat.S754_nan => false
  | SpecFloat.S754_infinity s => s
  | SpecFloat.S754_zero _ => (0 <? z)%Z
  | SpecFloat.S754_finite s m e =>
      let v := if s then Z.neg m else Z.pos m in
      let floor := if (0 <=? e)%Z then v * 2 ^ e else v / 2 ^ (- e) in
      (floor <? z)%Z
  end.

(** [v > t] for a float literal [t]: numbers compare, anything else is a
    TypeError. *)
Definition gt_float (v : value) (t : float) : result bool :=
  match v with
  | VFloat f => Ok (PyFloat.gt f t)
  | VInt z => Ok (int_gt_float z t)
  | VBool b => Ok (int_gt_float (if b then 1 else 0) t)
  | _ =>
      Raise (TypeError
               ("'>' not supported between instances of '" ++ type_name v
                ++ "' and 'float'"))
  end.

(** [f] is a finite positive binary64 within half a unit in the last place
    of the rational [n / d] (for positive [n] and [d]). *)
Definition nearest_to (f : float) (n d : Z) : bool :=
  match Prim2SF f with
  | SpecFloat.S754_finite false m e =>
      let a := Z.pos m * d * 2 ^ Z.max 0 e in
      let b := n * 2 ^ Z.max 0 (- e) in
      let u := d * 2 ^ Z.max 0 e in
      (2 ^ 52 <=? Z.pos m)%Z && (Z.pos m <? 2 ^ 53)%Z
      && (2 * Z.abs (a - b) <=? u)%Z
  | _ => false
  end.

(** [p] holds of the [fuel] integers from [c] on. *)
Fixpoint all_from (fuel : nat) (c : Z) (p : Z -> bool) : bool :=
  match fuel with
  | O => true
  | S n => p c && all_from n (c + 1) p
  end.

End Py.

(* ================================================================= *)
(** ** Catalog matcher ([routes/detection.py], [map_detections_to_catalog]) *)

Module Catalog.

Local Notation "x <- m ;; f" := (Py.bind m (fun x => f))
  (at level 61, m at next level, right associativity).

(** [ItemCatalog] rows. *)
Record ItemCatalog : Type := mkItemCatalog {
  id : string;
  tenant_id : string;
  name : string;
  aliases : option (list string);
  category : option string;
  base_cubic_feet : option Decimal;
  labor_multiplier : option Decimal;
  is_active : bool
}.

(** [ItemCatalog.query.filter_by(tenant_id=tenant_id, is_active=True).all()],
    in table order. *)
Definition active_items (tenant : string) (table : list ItemCatalog)
  : list ItemCatalog :=
  filter (fun c => String.eqb (tenant_id c) tenant && is_active c)%bool table.

(** The locals [matched_item] and [best_match_score]. *)
Definition match_state : Type := (option ItemCatalog * float)%type.

Definition no_match : match_state := (None, 0%float).

(** [for alias in catalog_item.aliases]: an exact alias match breaks out of
    the alias loop; a substring match in either direction is adopted while
    the best score is below 0.7. *)
Fixpoint alias_loop (catalog_item : ItemCatalog) (detected_name : string)
  (als : list string) (st : match_state) : match_state :=
  match als with
  | [] => st
  | alias :: rest =>
      if String.eqb (PyStr.lower alias) detected_name then
        (Some catalog_item, 0.9%float)
      else if (PyStr.contains detected_name (PyStr.lower alias)
               || PyStr.contains (PyStr.lower alias) detected_name)%bool then
        alias_loop catalog_item detected_name rest
          (if PyFloat.lt (snd st) 0.7%float
           then (Some catalog_item, 0.7%float) else st)
      else alias_loop catalog_item detected_name rest st
  end.

(** [for catalog_item in catalog_items]: an exact name match breaks out of
    the scan. *)
Fixpoint catalog_loop (detected_name : string) (catalog_items : list ItemCatalog)
  (st : match_state) : match_state :=
  match catalog_items with
  | [] => st
  | catalog_item :: rest =>
      if String.eqb (PyStr.lower (name catalog_item)) detected_name then
        (Some catalog_item, 1.0%float)
      else
        let st' :=
          match aliases catalog_item with
          | Some ((_ :: _) as als) => alias_loop catalog_item detected_name als st
          | _ => st
          end in
        catalog_loop detected_name rest st'
  end.

(** The matcher proper: the state after the scan of the catalog. *)
Definition match_label (label : string) (catalog_items : list ItemCatalog)
  : match_state :=
  catalog_loop (PyStr.lower label) catalog_items no_match.

(** The dict [mapped_item]: the first four entries are what the detection
    holds, whatever JSON that is. *)
Record MappedItem : Type := mkMappedItem {
  detected_name : Py.value;
  confidence_score : Py.value;
  quantity : Py.value;
  bounding_box : Py.value;
  catalog_item_id : option string;
  catalog_item_name : option string;
  cubic_feet : option float;
  mapped_labor_multiplier : float;
  mapped_category : option string
}.

(** [float(d) if d else None] *)
Definition truthy_float_of (o : option Decimal) : option float :=
  match o with
  | Some d => if Dec.truthy d then Some (PyFloat.float_of_decimal d) else None
  | None => None
  end.

Definition mapped_item_of (name_value confidence quantity_value bbox : Py.value)
  (matched_item : option ItemCatalog) : MappedItem :=
  {| detected_name := name_value;
     confidence_score := confidence;
     quantity := quantity_value;
     bounding_box := bbox;
     catalog_item_id := option_map id matched_item;
     catalog_item_name := option_map name matched_item;
     cubic_feet :=
       match matched_item with
       | Some m => truthy_float_of (base_cubic_feet m)
       | None => None
       end;
     mapped_labor_multiplier :=
       match matched_item with
       | Some m =>
           match truthy_float_of (labor_multiplier m) with
           | Some f => f
           | None => 1.0%float
           end
       | None => 1.0%float
       end;
     mapped_category :=
       match matched_item with
       | Some m => category m
       | None => Some "Unknown"%string
       end |}.

(** The body of [for detection in detections]: [detection.get] raises
    unless the detection is a dict, [.lower()] unless the name is a str. *)
Definition map_detection (catalog_items : list ItemCatalog) (detection : Py.value)
  : Py.result MappedItem :=
  name_or_empty <- Py.get detection "name" (Py.VStr EmptyString) ;;
  detected_name <- Py.lower name_or_empty ;;
  confidence <- Py.get detection "confidence" (Py.VInt 0) ;;
  let '(matched_item, _) := catalog_loop detected_name catalog_items no_match in
  name_value <- Py.get detection "name" Py.VNone ;;
  quantity_value <- Py.get detection "quantity" (Py.VInt 1) ;;
  bbox <- Py.get detection "bbox" Py.VNone ;;
  Py.Ok (mapped_item_of name_value confidence quantity_value bbox matched_item).

Fixpoint map_loop (catalog_items : list ItemCatalog) (detections : list Py.value)
  : Py.result (list MappedItem) :=
  match detections with
  | [] => Py.Ok []
  | detection :: rest =>
      mapped_item <- map_detection catalog_items detection ;;
      mapped_items <- map_loop catalog_items rest ;;
      Py.Ok (mapped_item :: mapped_items)
  end.

(** [map_detections_to_catalog]: [detections] is whatever the response
    holds under that key. *)
Definition map_detections_to_catalog (detections : Py.value)
  (tenant : string) (table : list ItemCatalog) : Py.result (list MappedItem) :=
  let catalog_items := active_items tenant table in
  items <- Py.iter detections ;;
  map_loop catalog_items items.

(** [catalog_item.name.lower() == label] *)
Definition name_is (label : string) (c : ItemCatalog) : bool :=
  String.eqb (PyStr.lower (name c)) label.

(** Some alias of the entry, lowercased, equals [label]. *)
Definition has_alias (label : string) (c : ItemCatalog) : bool :=
  match aliases c with
  | Some als => existsb (fun a => String.eqb (PyStr.lower a) label) als
  | None => false
  end.

End Catalog.

(* ================================================================= *)
(** ** Detection routes ([routes/detection.py], [detect_text], [detect_auto])

    The routes are followed from [job.status = 'processing'] on; every
    [db.session.commit()] is taken to succeed, so that the job and the rows
    added are stored as the route leaves them. *)

Module Detection.

Local Notation "x <- m ;; f" := (Py.bind m (fun x => f))
  (at level 61, m at next level, right associativity).

Inductive job_status : Type := pending | processing | completed | failed.

Inductive job_kind : Type := text | auto.

(** [job.results]: the raw detections and the mapped items. *)
Record job_results : Type := mkResults {
  res_detections : Py.value;
  res_mapped_items : list Catalog.MappedItem
}.

Record DetectionJob : Type := mkDetectionJob {
  tenant_id : string;
  quote_id : string;
  media_ids : list string;
  job_type : job_kind;
  prompt : option string;
  status : job_status;
  results : option job_results;
  error_message : Py.value;
  completed_at : option datetime
}.

Definition create_detection_job (tenant quote : string) (media : list string)
  (kind : job_kind) (prompt : option string) : DetectionJob :=
  {| tenant_id := tenant; quote_id := quote; media_ids := media;
     job_type := kind; prompt := prompt; status := pending;
     results := None; error_message := Py.VNone; completed_at := None |}.

(** [call_yoloe_service]: it returns the JSON document of the response or
    raises an exception with the text [msg]. *)
Inductive call_result : Type :=
| Returns (r : Py.value)
| Raises (msg : string).

(** The keyword arguments of the [QuoteItem(...)] the routes construct. *)
Record NewQuoteItem : Type := mkNewQuoteItem {
  qi_quote_id : string;
  qi_item_catalog_id : option string;
  qi_detected_name : Py.value;
  qi_quantity : Py.value;
  qi_cubic_feet : option float;
  qi_confidence_score : Py.value
}.

(** What a route leaves behind: the job row, the quote row with its stored
    line items and totals, the rows passed to [db.session.add], and the
    exception the inner handler re-raises, if any. *)
Record outcome : Type := mkOutcome {
  job : DetectionJob;
  quote : Pricing.Quote;
  added_items : list NewQuoteItem;
  raised : option Py.exn
}.

Definition set_status (j : DetectionJob) (s : job_status) : DetectionJob :=
  {| tenant_id := tenant_id j; quote_id := quote_id j; media_ids := media_ids j;
     job_type := job_type j; prompt := prompt j; status := s;
     results := results j; error_message := error_message j;
     completed_at := completed_at j |}.

(** [job.status = 'failed'; job.error_message = msg] *)
Definition set_failed (j : DetectionJob) (msg : Py.value) : DetectionJob :=
  {| tenant_id := tenant_id j; quote_id := quote_id j; media_ids := media_ids j;
     job_type := job_type j; prompt := prompt j; status := failed;
     results := results j; error_message := msg;
     completed_at := completed_at j |}.

(** [job.status = 'completed'; job.results = ...; job.completed_at = now] *)
Definition set_completed (j : DetectionJob) (r : job_results) (now : datetime)
  : DetectionJob :=
  {| tenant_id := tenant_id j; quote_id := quote_id j; media_ids := media_ids j;
     job_type := job_type j; prompt := prompt j; status := completed;
     results := Some r; error_message := error_message j;
     completed_at := Some now |}.

(** [if item['catalog_item_id'] and item['confidence_score'] > threshold]:
    the comparison is reached only with a catalog id, and raises on a
    confidence that is no number. *)
Definition qualifies (threshold : float) (item : Catalog.MappedItem)
  : Py.result bool :=
  match Catalog.catalog_item_id item with
  | Some i =>
      if String.eqb i EmptyString then Py.Ok false
      else Py.gt_float (Catalog.confidence_score item) threshold
  | None => Py.Ok false
  end.

Definition quote_item_of (quote : string) (item : Catalog.MappedItem)
  : NewQuoteItem :=
  {| qi_quote_id := quote;
     qi_item_catalog_id := Catalog.catalog_item_id item;
     qi_detected_name := Catalog.detected_name item;
     qi_quantity := Catalog.quantity item;
     qi_cubic_feet := Catalog.cubic_feet item;
     qi_confidence_score := Catalog.confidence_score item |}.

(** The [for item in mapped_items] loop of either route: the rows added, and
    the exception that ended the loop, if one did. *)
Fixpoint auto_add (threshold : float) (quote : string)
  (mapped_items : list Catalog.MappedItem) : list NewQuoteItem * option Py.exn :=
  match mapped_items with
  | [] => ([], None)
  | item :: rest =>
      match qualifies threshold item with
      | Py.Raise e => ([], Some e)
      | Py.Ok true =>
          let (added, e) := auto_add threshold quote rest in
          (quote_item_of quote item :: added, e)
      | Py.Ok false => auto_add threshold quote rest
      end
  end.

(** The statements of the [try] block before the job is touched:
    [result.get('success')], and on a success the detections and their
    mapping.  [None] stands for the [else] branch. *)
Definition read_result (result : Py.value) (tenant : string)
  (catalog : list Catalog.ItemCatalog) : Py.result (option job_results) :=
  success <- Py.get result "success" Py.VNone ;;
  if Py.truthy success then
    detections <- Py.get result "detections" (Py.VList []) ;;
    mapped_items <- Catalog.map_detections_to_catalog detections tenant catalog ;;
    Py.Ok (Some (mkResults detections mapped_items))
  else Py.Ok None.

(** The [try] block of a route with its [except Exception] handler, from
    [job.status = 'processing'] to the last commit.  [add] says whether the
    item loop runs; [threshold] is the literal of the route.  The handler
    sets the status and the message on the job as it is when the exception
    arrives: an exception of the item loop finds the results and
    [completed_at] already assigned, and the rows added so far in the
    session the handler commits. *)
Definition process (add : bool) (threshold : float) (now : datetime)
  (catalog : list Catalog.ItemCatalog) (q : Pricing.Quote)
  (j : DetectionJob) (call : call_result) : outcome :=
  let j := set_status j processing in
  match call with
  | Raises msg =>
      {| job := set_failed j (Py.VStr msg); quote := q; added_items := [];
         raised := Some (Py.Exception msg) |}
  | Returns result =>
      match read_result result (tenant_id j) catalog with
      | Py.Raise e =>
          {| job := set_failed j (Py.VStr (Py.str e)); quote := q;
             added_items := []; raised := Some e |}
      | Py.Ok (Some r) =>
          let j := set_completed j r now in
          if add then
            match auto_add threshold (quote_id j) (res_mapped_items r) with
            | (added, Some e) =>
                {| job := set_failed j (Py.VStr (Py.str e)); quote := q;
                   added_items := added; raised := Some e |}
            | (added, None) =>
                {| job := j; quote := q; added_items := added; raised := None |}
            end
          else {| job := j; quote := q; added_items := []; raised := None |}
      | Py.Ok None =>
          match Py.get result "error" (Py.VStr "Unknown error") with
          | Py.Ok msg =>
              {| job := set_failed j msg; quote := q; added_items := [];
                 raised := None |}
          | Py.Raise e =>
              {| job := set_failed j (Py.VStr (Py.str e)); quote := q;
                 added_items := []; raised := Some e |}
          end
      end
  end.

(** [POST /text]: the request was validated, the quote [q] (id [quote_id])
    found and its media listed. *)
Definition detect_text (auto_add_items : bool) (prompt : string)
  (now : datetime) (tenant quote_id : string) (media : list string)
  (catalog : list Catalog.ItemCatalog) (q : Pricing.Quote)
  (call : call_result) : outcome :=
  let job := create_detection_job tenant quote_id media text (Some prompt) in
  process auto_add_items 0.7%float now catalog q job call.

(** [POST /auto] *)
Definition detect_auto (now : datetime) (tenant quote_id : string)
  (media : list string) (catalog : list Catalog.ItemCatalog)
  (q : Pricing.Quote) (call : call_result) : outcome :=
  let job := create_detection_job tenant quote_id media auto None in
  process true 0.8%float now catalog q job call.



End Detection.

(* ================================================================= *)
(** ** Rate limiter ([utils/rate_limiter.py], [check_rate_limit]) *)

Module RateLimiter.

Definition RATE_LIMIT_WINDOW_MINUTES : Z := 60.
Definition RATE_LIMIT_MAX_REQUESTS : Z := 100.

(** [rate_limits] rows; [request_count] is a nullable column. *)
Record RateLimit : Type := mkRateLimit {
  tenant_id : string;
  ip_address : string;
  endpoint : string;
  request_count : option Z;
  window_start : datetime
}.

(** What the function does not control: the [ipaddress] parser ([None] is
    ValueError), which texts the INET column [ip_address] takes as a value,
    and whether the database fails on the query or on the commit. *)
Record env : Type := mkEnv {
  ip_address_str : string -> option string;
  inet_accepts : string -> bool;
  query_raises : bool;
  commit_raises : bool
}.

Inductive exn : Type :=
| DatabaseError
| DataError
| TypeError.

Inductive result (A : Type) : Type :=
| Ok (a : A)
| Raise (e : exn).

Arguments Ok {A} a.
Arguments Raise {A} e.

Definition bind {A B : Type} (m : result A) (f : A -> result B) : result B :=
  match m with
  | Ok a => f a
  | Raise e => Raise e
  end.

Local Notation "x <- m ;; f" := (bind m (fun x => f))
  (at level 61, m at next level, right associativity).

(** [max_requests or RATE_LIMIT_MAX_REQUESTS] *)
Definition or_default (o : option Z) (d : Z) : Z :=
  match o with
  | Some n => if n =? 0 then d else n
  | None => d
  end.

(** [now.replace(minute=0, second=0, microsecond=0)] *)
Definition window_of (now : datetime) : datetime :=
  {| year := year now; month := month now; day := day now; hour := hour now;
     minute := 0; second := 0; microsecond := 0 |}.

Definition datetime_eqb (a b : datetime) : bool :=
  (year a =? year b) && (month a =? month b) && (day a =? day b)
  && (hour a =? hour b) && (minute a =? minute b) && (second a =? second b)
  && (microsecond a =? microsecond b).

(** The [filter_by] of the lookup. *)
Definition key_matches (tenant ip endp : string) (w : datetime) (r : RateLimit)
  : bool :=
  String.eqb (tenant_id r) tenant && String.eqb (ip_address r) ip
  && String.eqb (endpoint r) endp && datetime_eqb (window_start r) w.

(** [RateLimit.query.filter_by(...).first()]: the comparison with the INET
    column makes the database read [ip] as an inet value, and the statement
    fails on a text that is none. *)
Definition query_first (e : env) (tenant ip endp : string) (w : datetime)
  (table : list RateLimit) : result (option RateLimit) :=
  if query_raises e then Raise DatabaseError
  else if inet_accepts e ip then Ok (find (key_matches tenant ip endp w) table)
  else Raise DataError.

(** [db.session.commit()] of the table as changed by the caller. *)
Definition commit (e : env) (table : list RateLimit) : result (list RateLimit) :=
  if commit_raises e then Raise DatabaseError else Ok table.

(** [rate_limit.request_count += 1] on the row the query returned. *)
Fixpoint set_count (tenant ip endp : string) (w : datetime) (c : Z)
  (table : list RateLimit) : list RateLimit :=
  match table with
  | [] => []
  | r :: rest =>
      if key_matches tenant ip endp w r then
        {| tenant_id := tenant_id r; ip_address := ip_address r;
           endpoint := endpoint r; request_count := Some c;
           window_start := window_start r |} :: rest
      else r :: set_count tenant ip endp w c rest
  end.

(** The body of the [try]. *)
Definition check_rate_limit_try (e : env) (tenant ip endp : string)
  (max_requests window_minutes : option Z) (now : datetime)
  (table : list RateLimit) : result (bool * list RateLimit) :=
  let max_requests := or_default max_requests RATE_LIMIT_MAX_REQUESTS in
  let window_minutes := or_default window_minutes RATE_LIMIT_WINDOW_MINUTES in
  let window_start := window_of now in
  let normalized_ip :=
    match ip_address_str e ip with
    | Some s => s
    | None => ip
    end in
  rate_limit <- query_first e tenant normalized_ip endp window_start table ;;
  match rate_limit with
  | None =>
      table' <- commit e (table ++ [mkRateLimit tenant normalized_ip endp
                                      (Some 1) window_start]) ;;
      Ok (true, table')
  | Some row =>
      match request_count row with
      | None => Raise TypeError
      | Some count =>
          if max_requests <=? count then Ok (false, table)
          else
            table' <- commit e (set_count tenant normalized_ip endp
                                  window_start (count + 1) table) ;;
            Ok (true, table')
      end
  end.

(** [check_rate_limit]: [except Exception] prints and returns [True]; the
    committed table is then the one before the call. *)
Definition check_rate_limit (e : env) (tenant ip endp : string)
  (max_requests window_minutes : option Z) (now : datetime)
  (table : list RateLimit) : bool * list RateLimit :=
  match check_rate_limit_try e tenant ip endp max_requests window_minutes
          now table with
  | Ok r => r
  | Raise _ => (true, table)
  end.

(** A sequential run: one call per time of [times], each on the table the
    previous call left. *)
Fixpoint run (e : env) (tenant ip endp : string) (max_requests : option Z)
  (times : list datetime) (table : list RateLimit) : list bool * list RateLimit :=
  match times with
  | [] => ([], table)
  | now :: rest =>
      let (allowed, table') :=
        check_rate_limit e tenant ip endp max_requests None now table in
      let (results, table'') := run e tenant ip endp max_requests rest table' in
      (allowed :: results, table'')
  end.

(** The IP the lookup uses. *)
Definition normalized (e : env) (ip : string) : string :=
  match ip_address_str e ip with
  | Some s => s
  | None => ip
  end.

(** The count stored for a key and window: [None] when there is no row. *)
Definition stored_count (tenant ip endp : string) (w : datetime)
  (table : list RateLimit) : option (option Z) :=
  option_map request_count (find (key_matches tenant ip endp w) table).

(** Two times of one fixed window: the same clock hour of the same day. *)
Definition same_hour (a b : datetime) : Prop :=
  year a = year b /\ month a = month b /\ day a = day b /\ hour a = hour b.


(** The counter row a call at [now] reads: the first row of the key whose
    window starts at the top of the hour of [now]. *)
Definition counter_at (tenant ip endp : string) (now : datetime)
  (table : list RateLimit) : option RateLimit :=
  find (fun r =>
          String.eqb (tenant_id r) tenant && String.eqb (ip_address r) ip
          && String.eqb (endpoint r) endp
          && (year (window_start r) =? year now)
          && (month (window_start r) =? month now)
          && (day (window_start r) =? day now)
          && (hour (window_start r) =? hour now)
          && (minute (window_start r) =? 0)
          && (second (window_start r) =? 0)
          && (microsecond (window_start r) =? 0))
       table.

(** The internal errors of a call: the lookup fails; the database does not
    take the IP text as an inet value; the counter read holds a null count;
    the commit of the new row, or of the increment, fails. *)
Inductive internal_error (e : env) (tenant ip endp : string) (limit : Z)
  (now : datetime) (table : list RateLimit) : Prop :=
| lookup_fails :
    query_raises e = true ->
    internal_error e tenant ip endp limit now table
| ip_rejected :
    inet_accepts e (normalized e ip) = false ->
    internal_error e tenant ip endp limit now table
| null_count (r : RateLimit) :
    counter_at tenant (normalized e ip) endp now table = Some r ->
    request_count r = None ->
    internal_error e tenant ip endp limit now table
| insert_fails :
    commit_raises e = true ->
    counter_at tenant (normalized e ip) endp now table = None ->
    internal_error e tenant ip endp limit now table
| increment_fails (r : RateLimit) (c : Z) :
    commit_raises e = true ->
    counter_at tenant (normalized e ip) endp now table = Some r ->
    request_count r = Some c ->
    c < limit ->
    internal_error e tenant ip endp limit now table.

End RateLimiter.

(* ================================================================= *)
(** ** Rate limiter: status, reset and cleanup ([utils/rate_limiter.py]) *)

Module RateLimiterOps.
Import RateLimiter.

Definition is_leap (y : Z) : bool :=
  (y mod 4 =? 0) && (negb (y mod 100 =? 0) || (y mod 400 =? 0)).

Definition days_in_month (y m : Z) : Z :=
  if m =? 2 then (if is_leap y then 29 else 28)
  else if (m =? 4) || (m =? 6) || (m =? 9) || (m =? 11) then 30
  else 31.

Definition with_date (d : datetime) (y m dd : Z) : datetime :=
  {| year := y; month := m; day := dd; hour := hour d; minute := minute d;
     second := second d; microsecond := microsecond d |}.

(** [d - timedelta(hours=24)]: the same time on the previous date; [None] is
    OverflowError (before year 1). *)
Definition minus_24_hours (d : datetime) : option datetime :=
  if 1 <? day d then Some (with_date d (year d) (month d) (day d - 1))
  else if 1 <? month d then
    Some (with_date d (year d) (month d - 1) (days_in_month (year d) (month d - 1)))
  else if 1 <? year d then Some (with_date d (year d - 1) 12 31)
  else None.

(** [d + timedelta(minutes=RATE_LIMIT_WINDOW_MINUTES)], one hour later;
    [None] is OverflowError (after year 9999). *)
Definition plus_window (d : datetime) : option datetime :=
  let at_hour (x : datetime) (h : Z) :=
    {| year := year x; month := month x; day := day x; hour := h;
       minute := minute x; second := second x; microsecond := microsecond x |} in
  if hour d <? 23 then Some (at_hour d (hour d + 1))
  else if day d <? days_in_month (year d) (month d) then
    Some (at_hour (with_date d (year d) (month d) (day d + 1)) 0)
  else if month d <? 12 then Some (at_hour (with_date d (year d) (month d + 1) 1) 0)
  else if year d <? 9999 then Some (at_hour (with_date d (year d + 1) 1 1) 0)
  else None.

(** [a < b] on datetimes: the order of the fields, most significant first. *)
Definition datetime_ltb (a b : datetime) : bool :=
  let fix lex (l : list (Z * Z)) : bool :=
    match l with
    | [] => false
    | (x, y) :: r => (x <? y) || ((x =? y) && lex r)
    end in
  lex [(year a, year b); (month a, month b); (day a, day b); (hour a, hour b);
       (minute a, minute b); (second a, second b);
       (microsecond a, microsecond b)].

(** The dict [get_rate_limit_status] returns; the two window bounds are
    kept as datetimes (the source renders them with [isoformat]) and are
    absent from the dict of the [except] branch. *)
Inductive status_exn : Type :=
| Limiter (e : exn)     (* the query raised, or the stored count is null *)
| OverflowError.        (* the end of the window is past year 9999 *)

Record status : Type := mkStatus {
  status_error : option status_exn;
  requests_made : Z;
  requests_remaining : Z;
  status_window_start : option datetime;
  status_window_end : option datetime
}.

Definition status_try (e : env) (tenant ip endp : string) (now : datetime)
  (table : list RateLimit) : status + status_exn :=
  let normalized_ip := normalized e ip in
  let window_start := window_of now in
  match query_first e tenant normalized_ip endp window_start table with
  | Raise err => inr (Limiter err)
  | Ok None =>
      match plus_window window_start with
      | Some window_end =>
          inl {| status_error := None; requests_made := 0;
                 requests_remaining := RATE_LIMIT_MAX_REQUESTS;
                 status_window_start := Some window_start;
                 status_window_end := Some window_end |}
      | None => inr OverflowError
      end
  | Ok (Some row) =>
      match request_count row with
      | None => inr (Limiter TypeError)
      | Some count =>
          match plus_window (RateLimiter.window_start row) with
          | Some window_end =>
              inl {| status_error := None; requests_made := count;
                     requests_remaining := Z.max 0 (RATE_LIMIT_MAX_REQUESTS - count);
                     status_window_start := Some (RateLimiter.window_start row);
                     status_window_end := Some window_end |}
          | None => inr OverflowError
          end
      end
  end.

Definition get_rate_limit_status (e : env) (tenant ip endp : string)
  (now : datetime) (table : list RateLimit) : status :=
  match status_try e tenant ip endp now table with
  | inl s => s
  | inr err =>
      {| status_error := Some err; requests_made := 0;
         requests_remaining := RATE_LIMIT_MAX_REQUESTS;
         status_window_start := None; status_window_end := None |}
  end.


(** [cleanup_old_rate_limits]: the rows whose window started more than 24
    hours before [now] are deleted; the number printed and the table are
    returned.  A failure rolls back. *)
Definition cleanup_old_rate_limits (e : env) (now : datetime)
  (table : list RateLimit) : option Z * list RateLimit :=
  match minus_24_hours now with
  | None => (None, table)
  | Some cutoff_time =>
      if query_raises e then (None, table)
      else
        let old := fun r => datetime_ltb (RateLimiter.window_start r) cutoff_time in
        match commit e (filter (fun r => negb (old r)) table) with
        | Ok table' => (Some (Z.of_nat (List.length (filter old table))), table')
        | Raise _ => (None, table)
        end
  end.

End RateLimiterOps.

(* ================================================================= *)
(** ** Quote numbers: well-formed tables *)

Module QuoteNumberSpec.
Import QuoteNumber.

(** Every character of [s] is a decimal digit. *)
Fixpoint all_digits (s : string) : bool :=
  match s with
  | EmptyString => true
  | String c r => PyStr.is_digit c && all_digits r
  end.

(** The four digits of [k], most significant first. *)
Definition four_digits (k : Z) : string :=
  String (PyStr.digit_char (k / 1000))
    (String (PyStr.digit_char (k / 100 mod 10))
       (String (PyStr.digit_char (k / 10 mod 10))
          (String (PyStr.digit_char (k mod 10)) EmptyString))).

(** The tenant's numbers of the month of [now] are of the generator's form,
    prefix and four digits, with a sequence from 1 to [bound]. *)
Definition well_numbered (bound : Z) (now : datetime) (tenant : string)
  (table : list QuoteRow) : Prop :=
  forall row, In row table -> tenant_id row = tenant ->
    String.prefix (prefix_of now) (quote_number row) = true ->
    exists k, 1 <= k <= bound
              /\ quote_number row = (prefix_of now ++ PyStr.format_0d 4 k)%string.

(** The sequence the generator reads off a row: [int(quote_number[len(prefix):])],
    0 when that is a ValueError. *)
Definition sequence_of (now : datetime) (row : QuoteRow) : Z :=
  match PyStr.py_int (PyStr.drop (String.length (prefix_of now)) (quote_number row)) with
  | Some k => k
  | None => 0
  end.

(** A sequential schedule: each caller generates and commits before the
    next one starts. *)
Definition sequential (tenant : string) (callers : list nat) : list event :=
  flat_map (fun c => [Generate c tenant; Commit c]) callers.

(** The numbers of the month of [now] all belong to [tenant]. *)
Definition month_owned (now : datetime) (tenant : string) (table : list QuoteRow)
  : Prop :=
  forall row, In row table ->
    String.prefix (prefix_of now) (quote_number row) = true ->
    tenant_id row = tenant.

End QuoteNumberSpec.

(* ================================================================= *)
(** ** Pricing and matching: notions used by the properties *)

Module PricingSpec.
Import Pricing.

(** The truthiness test the loop applies to a nullable Decimal column. *)
Definition present (o : option Decimal) : bool :=
  match o with
  | Some d => Dec.truthy d
  | None => false
  end.

(** The item enters a total: its cubic_feet or its labor_hours passes the
    test of the loop. *)
Definition measured (item : QuoteItem) : bool :=
  present (cubic_feet item) || present (labor_hours item).

(** The same quote with other line items. *)
Definition with_items (q : Quote) (items : list QuoteItem) : Quote :=
  {| quote_items := items; distance_miles := distance_miles q;
     total_cubic_feet := total_cubic_feet q;
     total_labor_hours := total_labor_hours q;
     subtotal := subtotal q; tax_amount := tax_amount q;
     total_amount := total_amount q |}.

(** The five totals of a quote. *)
Definition totals (q : Quote) : Decimal * Decimal * Decimal * Decimal * Decimal :=
  (total_cubic_feet q, total_labor_hours q, subtotal q, tax_amount q,
   total_amount q).

End PricingSpec.

Module CatalogSpec.
Import Catalog.



(** The scores the matcher assigns. *)
Definition is_weight (w : float) : Prop :=
  w = 0.7%float \/ w = 0.9%float \/ w = 1.0%float.



End CatalogSpec.

(* ================================================================= *)
(** ** Data of the scenarios *)

Module Scenario.

Local Open Scope string_scope.

Definition now : datetime := mkDatetime 2026 11 3 17 25 30 0.


(** [{name: "Sofa", aliases: ["Couch", "Sectional"]}] *)
Definition sofa : Catalog.ItemCatalog :=
  {| Catalog.id := "c-sofa"; Catalog.tenant_id := "t1"; Catalog.name := "Sofa";
     Catalog.aliases := Some ["Couch"; "Sectional"];
     Catalog.category := Some "Furniture";
     Catalog.base_cubic_feet := Some (mkDec 3510 (-2));
     Catalog.labor_multiplier := Some (mkDec 150 (-2));
     Catalog.is_active := true |}.

Definition lamp : Catalog.ItemCatalog :=
  {| Catalog.id := "c-lamp"; Catalog.tenant_id := "t1"; Catalog.name := "Lamp";
     Catalog.aliases := Some ["Couch lamp"];
     Catalog.category := None;
     Catalog.base_cubic_feet := Some (mkDec 300 (-2));
     Catalog.labor_multiplier := None;
     Catalog.is_active := true |}.

(** A stored quote with no line items and zero totals. *)
Definition empty_quote : Pricing.Quote :=
  Pricing.quote_with [] (Some (mkDec 0 0)).

(** [{"name": "couch", "confidence": 0.95, "quantity": 1}] *)
Definition couch_detection : Py.value :=
  Py.VDict [("name", Py.VStr "couch"); ("confidence", Py.VFloat 0.95%float);
            ("quantity", Py.VInt 1)].

(** [{"name": "", "confidence": 0.95}] *)
Definition empty_detection : Py.value :=
  Py.VDict [("name", Py.VStr ""); ("confidence", Py.VFloat 0.95%float)].

(** [{"confidence": 0.95}] *)
Definition unnamed_detection : Py.value :=
  Py.VDict [("confidence", Py.VFloat 0.95%float)].

(** [{"name": "couch", "confidence": null}] *)
Definition unscored_detection : Py.value :=
  Py.VDict [("name", Py.VStr "couch"); ("confidence", Py.VNone)].

(** [{"name": null, "confidence": 0.95}] *)
Definition null_name_detection : Py.value :=
  Py.VDict [("name", Py.VNone); ("confidence", Py.VFloat 0.95%float)].

(** [{"success": true, "detections": [...]}] *)
Definition vision_answers (detections : list Py.value) : Detection.call_result :=
  Detection.Returns
    (Py.VDict [("success", Py.VBool true); ("detections", Py.VList detections)]).

Definition vision_ok : Detection.call_result := vision_answers [couch_detection].

(** [{"success": false, "error": "model unavailable"}] *)
Definition vision_failed : Detection.call_result :=
  Detection.Returns
    (Py.VDict [("success", Py.VBool false); ("error", Py.VStr "model unavailable")]).

(** An entry named "Couch", after the sofa in the catalog. *)
Definition couch : Catalog.ItemCatalog :=
  {| Catalog.id := "c-couch"; Catalog.tenant_id := "t1"; Catalog.name := "Couch";
     Catalog.aliases := None;
     Catalog.category := Some "Furniture";
     Catalog.base_cubic_feet := Some (mkDec 4000 (-2));
     Catalog.labor_multiplier := None;
     Catalog.is_active := true |}.

(** An entry that lists "couch" among its aliases. *)
Definition loveseat : Catalog.ItemCatalog :=
  {| Catalog.id := "c-loveseat"; Catalog.tenant_id := "t1"; Catalog.name := "Loveseat";
     Catalog.aliases := Some ["Couch"];
     Catalog.category := Some "Furniture";
     Catalog.base_cubic_feet := Some (mkDec 2500 (-2));
     Catalog.labor_multiplier := None;
     Catalog.is_active := true |}.

(** The sofa entry with a volume of 0.00. *)
Definition flat_sofa : Catalog.ItemCatalog :=
  {| Catalog.id := "c-sofa"; Catalog.tenant_id := "t1"; Catalog.name := "Sofa";
     Catalog.aliases := Some ["Couch"; "Sectional"];
     Catalog.category := Some "Furniture";
     Catalog.base_cubic_feet := Some (mkDec 0 (-2));
     Catalog.labor_multiplier := Some (mkDec 150 (-2));
     Catalog.is_active := true |}.

(** Dotted-quad IPv4 text: four decimal numbers up to 255, without leading
    zeros. *)
Fixpoint ipv4_from (s : string) (digits : nat) (value : Z) (dots : nat) : bool :=
  match s with
  | EmptyString => (0 <? digits)%nat && (dots =? 3)%nat && (value <=? 255)%Z
  | String c rest =>
      if Ascii.eqb c "."%char then
        (0 <? digits)%nat && (value <=? 255)%Z && ipv4_from rest 0 0 (S dots)
      else if PyStr.is_digit c then
        negb ((0 <? digits)%nat && (value =? 0)%Z)
        && ipv4_from rest (S digits) (10 * value + PyStr.digit_val c) dots
      else false
  end.

Definition is_ipv4 (s : string) : bool := ipv4_from s 0 0 0.

(** A working database and IPv4 clients: [ipaddress] and the INET column
    take the dotted quads, which [str] gives back as they are. *)
Definition healthy : RateLimiter.env :=
  {| RateLimiter.ip_address_str := fun s => if is_ipv4 s then Some s else None;
     RateLimiter.inet_accepts := is_ipv4;
     RateLimiter.query_raises := false;
     RateLimiter.commit_raises := false |}.

(** The database answers queries and fails on every commit. *)
Definition commit_fails : RateLimiter.env :=
  {| RateLimiter.ip_address_str := fun s => if is_ipv4 s then Some s else None;
     RateLimiter.inet_accepts := is_ipv4;
     RateLimiter.query_raises := false;
     RateLimiter.commit_raises := true |}.

Definition database_down : RateLimiter.env :=
  {| RateLimiter.ip_address_str := fun s => if is_ipv4 s then Some s else None;
     RateLimiter.inet_accepts := is_ipv4;
     RateLimiter.query_raises := true;
     RateLimiter.commit_raises := true |}.

End Scenario.

(* ================================================================= *)
(** ** Decimal arithmetic: exactness on short values *)

Module DecFacts.
Import Dec.

Lemma pow10_pos (k : Z) : 0 <= k -> 0 < 10 ^ k.
Proof. intros. apply Z.pow_pos_nonneg; lia. Qed.

(** Moving a power of ten from one side of an equation to the other. *)
Lemma pow10_shift (X Y p q p' q' : Z) :
  0 <= p -> 0 <= q -> 0 <= p' -> 0 <= q' -> p - q = p' - q' ->
  X * 10 ^ p = Y * 10 ^ q -> X * 10 ^ p' = Y * 10 ^ q'.
Proof.
  intros Hp Hq Hp' Hq' Hd H.
  destruct (Z_le_gt_dec p p') as [Hle | Hgt].
  - replace p' with (p + (p' - p)) by lia.
    replace q' with (q + (p' - p)) by lia.
    rewrite !Z.pow_add_r by lia.
    rewrite !Z.mul_assoc, H. reflexivity.
  - replace p with (p' + (p - p')) in H by lia.
    replace q with (q' + (p - p')) in H by lia.
    rewrite !Z.pow_add_r in H by lia.
    rewrite !Z.mul_assoc in H.
    apply Z.mul_reg_r in H; [exact H|].
    pose proof (pow10_pos (p - p')). lia.
Qed.

Lemma ndigits_aux_bounds (fuel : nat) : forall n,
  0 <= n < 2 ^ Z.of_nat fuel ->
  0 <= ndigits_aux fuel n /\ n < 10 ^ ndigits_aux fuel n /\
  (0 < n -> 10 ^ (ndigits_aux fuel n - 1) <= n).
Proof.
  induction fuel as [|f IH]; intros n Hn.
  - simpl in *. assert (n = 0) by lia. subst. repeat split; lia.
  - cbn [ndigits_aux]. destruct (Z.eqb_spec n 0) as [->|Hnz].
    + repeat split; try lia.
    + assert (Hdiv : 0 <= n / 10 < 2 ^ Z.of_nat f).
      { split. apply Z.div_pos; lia.
        rewrite Nat2Z.inj_succ, Z.pow_succ_r in Hn by lia.
        apply Z.div_lt_upper_bound; lia. }
      destruct (IH _ Hdiv) as (H0 & Hlt & Hge).
      set (d := ndigits_aux f (n / 10)) in *.
      pose proof (Z.div_mod n 10 ltac:(lia)) as Hdm.
      pose proof (Z.mod_pos_bound n 10 ltac:(lia)) as Hmb.
      split; [lia|]. split.
      * replace (1 + d) with (Z.succ d) by lia. rewrite Z.pow_succ_r by lia. lia.
      * intros _. replace (1 + d - 1) with d by lia.
        destruct (Z.eq_dec (n / 10) 0) as [E|E].
        -- assert (d = 0). { unfold d. rewrite E. destruct f; reflexivity. }
           subst d. rewrite H. simpl. lia.
        -- assert (0 < n / 10) by lia. specialize (Hge H).
           replace d with (Z.succ (d - 1)) by lia.
           destruct (Z.eq_dec d 0) as [Ed|Ed].
           ++ rewrite Ed in Hlt. simpl in Hlt. lia.
           ++ rewrite Z.pow_succ_r by lia. lia.
Qed.

Lemma ndigits_bounds (n : Z) :
  0 <= ndigits n /\ Z.abs n < 10 ^ ndigits n /\
  (n <> 0 -> 10 ^ (ndigits n - 1) <= Z.abs n).
Proof.
  unfold ndigits.
  assert (H : 0 <= Z.abs n < 2 ^ Z.of_nat (S (Z.to_nat (Z.log2 (Z.abs n))))).
  { split; [lia|]. rewrite Nat2Z.inj_succ, Z2Nat.id by apply Z.log2_nonneg.
    destruct (Z.eq_dec (Z.abs n) 0) as [E|E]; [rewrite E; reflexivity|].
    apply Z.log2_spec. lia. }
  destruct (ndigits_aux_bounds _ _ H) as (A & B & C).
  repeat split; auto. intros Hn. apply C. lia.
Qed.

Lemma eqb_represents (d : Decimal) (N s : Z) :
  eqb d (mkDec N (- s)) = true <-> represents d N s.
Proof.
  unfold eqb, aligned, represents. cbn [coef dexp].
  replace (dexp d - Z.min (dexp d) (- s)) with (Z.max 0 (dexp d + s)) by lia.
  replace (- s - Z.min (dexp d) (- s)) with (Z.max 0 (- (dexp d + s))) by lia.
  apply Z.eqb_eq.
Qed.

Lemma ltb_represents (d : Decimal) (N M s : Z) :
  represents d N s -> ltb d (mkDec M (- s)) = (N <? M).
Proof.
  unfold ltb, aligned, represents. cbn [coef dexp]. intros H.
  replace (dexp d - Z.min (dexp d) (- s)) with (Z.max 0 (dexp d + s)) by lia.
  replace (- s - Z.min (dexp d) (- s)) with (Z.max 0 (- (dexp d + s))) by lia.
  rewrite H.
  pose proof (pow10_pos (Z.max 0 (- (dexp d + s))) ltac:(lia)) as Hp.
  destruct (Z.ltb_spec N M); destruct (Z.ltb_spec (N * 10 ^ Z.max 0 (- (dexp d + s))) (M * 10 ^ Z.max 0 (- (dexp d + s)))); try reflexivity; nia.
Qed.

Lemma represents_truthy (d : Decimal) (N s : Z) : represents d N s -> N <> 0 -> truthy d = true.
Proof.
  unfold represents, truthy. intros H HN.
  destruct (Z.eqb_spec (coef d) 0) as [E|E]; [|reflexivity].
  rewrite E in H. simpl in H.
  pose proof (pow10_pos (Z.max 0 (- (dexp d + s))) ltac:(lia)). nia.
Qed.

Lemma represents_mul_exact (a b : Decimal) (N M s t : Z) :
  represents a N s -> represents b M t -> represents (mul_exact a b) (N * M) (s + t).
Proof.
  unfold represents, mul_exact. cbn [coef dexp]. intros Ha Hb.
  apply (pow10_shift _ _
           (Z.max 0 (dexp a + s) + Z.max 0 (dexp b + t))
           (Z.max 0 (- (dexp a + s)) + Z.max 0 (- (dexp b + t)))); try lia.
  rewrite !Z.pow_add_r by lia.
  transitivity ((coef a * 10 ^ Z.max 0 (dexp a + s)) * (coef b * 10 ^ Z.max 0 (dexp b + t))); [ring|].
  rewrite Ha, Hb. ring.
Qed.

Lemma represents_add_exact (a b : Decimal) (N M s : Z) :
  represents a N s -> represents b M s -> represents (add_exact a b) (N + M) s.
Proof.
  unfold represents, add_exact. cbn [coef dexp]. intros Ha Hb.
  set (m := Z.min (dexp a) (dexp b)).
  rewrite !Z.mul_add_distr_r, <- !Z.mul_assoc, <- !Z.pow_add_r by lia.
  f_equal.
  - eapply pow10_shift; [| | | | |exact Ha]; lia.
  - eapply pow10_shift; [| | | | |exact Hb]; lia.
Qed.

Lemma represents_scale (d : Decimal) (N s j : Z) :
  0 <= j -> represents d (N * 10 ^ j) (s + j) <-> represents d N s.
Proof.
  unfold represents. intros Hj. split; intros H.
  - rewrite <- Z.mul_assoc, <- Z.pow_add_r in H by lia.
    eapply pow10_shift; [| | | | |exact H]; lia.
  - rewrite <- Z.mul_assoc, <- Z.pow_add_r by lia.
    eapply pow10_shift; [| | | | |exact H]; lia.
Qed.

Lemma represents_fix_prec (d : Decimal) (N s : Z) :
  Z.abs N < 10 ^ prec -> represents d N s -> represents (fix_prec d) N s.
Proof.
  intros HN H. unfold fix_prec.
  destruct (Z.leb_spec (ndigits (coef d)) prec) as [Hle|Hgt]; [exact H|].
  destruct (ndigits_bounds (coef d)) as (Hn0 & Hub & Hlb).
  set (n := ndigits (coef d)) in *.
  assert (Hc : coef d <> 0).
  { intros E. unfold n in Hgt. rewrite E in Hgt. change (ndigits 0) with 0 in Hgt. unfold prec in Hgt. lia. }
  specialize (Hlb Hc).
  set (u := dexp d + s) in *.
  unfold represents in H. fold u in H.
  assert (Hmono : 10 ^ prec <= 10 ^ (n - 1)) by (apply Z.pow_le_mono_r; lia).
  (* the exponent is below the scale *)
  assert (Hu : u < 0).
  { destruct (Z_lt_ge_dec u 0) as [?|Hu]; [assumption|exfalso].
    replace (Z.max 0 (- u)) with 0 in H by lia.
    rewrite Z.pow_0_r, Z.mul_1_r in H.
    pose proof (pow10_pos (Z.max 0 u) ltac:(lia)).
    assert (Z.abs (coef d) <= Z.abs N).
    { rewrite <- H, Z.abs_mul. rewrite (Z.abs_eq (10 ^ _)) by lia. nia. }
    lia. }
  replace (Z.max 0 u) with 0 in H by lia.
  replace (Z.max 0 (- u)) with (- u) in H by lia.
  rewrite Z.pow_0_r, Z.mul_1_r in H.
  set (k := n - prec) in *.
  assert (Hk : k <= - u).
  { destruct (Z_le_gt_dec k (- u)) as [?|Hk]; [assumption|exfalso].
    assert (10 ^ (- u) <= 10 ^ (n - 1 - prec)) by (apply Z.pow_le_mono_r; unfold k in *; lia).
    assert (Z.abs (coef d) < 10 ^ prec * 10 ^ (n - 1 - prec)).
    { rewrite H, Z.abs_mul. pose proof (pow10_pos (- u) ltac:(lia)).
      rewrite (Z.abs_eq (10 ^ _)) by lia.
      pose proof (pow10_pos (n - 1 - prec) ltac:(unfold k in *; lia)). nia. }
    rewrite <- Z.pow_add_r in H1 by (unfold prec, k in *; lia).
    replace (prec + (n - 1 - prec)) with (n - 1) in H1 by lia. lia. }
  pose proof (pow10_pos k ltac:(unfold k; lia)) as Hpk.
  pose proof (pow10_pos (- u - k) ltac:(lia)) as Hpuk.
  assert (Hsplit : coef d = N * 10 ^ (- u - k) * 10 ^ k).
  { rewrite <- Z.mul_assoc, <- Z.pow_add_r by (unfold k in *; lia).
    replace (- u - k + k) with (- u) by lia. exact H. }
  assert (Habs : Z.abs (coef d) = Z.abs (N * 10 ^ (- u - k)) * 10 ^ k).
  { rewrite Hsplit at 1. rewrite Z.abs_mul, (Z.abs_eq (10 ^ k)) by lia. reflexivity. }
  assert (Hround : round_half_even (coef d) k = N * 10 ^ (- u - k)).
  { unfold round_half_even. cbv zeta.
    rewrite Habs, Z.div_mul, Z.mod_mul by lia.
    replace (10 ^ k <? 2 * 0) with false by (symmetry; apply Z.ltb_ge; lia).
    replace (10 ^ k =? 2 * 0) with false by (symmetry; apply Z.eqb_neq; lia).
    cbn [orb andb].
    rewrite Hsplit at 1.
    rewrite (Z.sgn_mul _ (10 ^ k)), (Z.sgn_pos (10 ^ k)), Z.mul_1_r by lia.
    generalize (N * 10 ^ (- u - k)). intros x. destruct x; reflexivity. }
  rewrite Hround.
  assert (Hsmall : Z.abs (N * 10 ^ (- u - k)) < 10 ^ prec).
  { assert (Z.abs (N * 10 ^ (- u - k)) * 10 ^ k < 10 ^ prec * 10 ^ k).
    { rewrite <- Habs, <- Z.pow_add_r; [| unfold prec; lia | lia].
      replace (prec + k) with n by (unfold k; lia). exact Hub. }
    nia. }
  destruct (Z.eqb_spec (Z.abs (N * 10 ^ (- u - k))) (10 ^ prec)) as [E|_]; [lia|].
  unfold represents. cbn [coef dexp].
  replace (dexp d + k + s) with (u + k) by (unfold u; lia).
  replace (Z.max 0 (u + k)) with 0 by lia.
  replace (Z.max 0 (- (u + k))) with (- u - k) by lia.
  rewrite Z.pow_0_r, Z.mul_1_r. reflexivity.
Qed.

Lemma represents_mul (a b : Decimal) (N M s t : Z) :
  Z.abs (N * M) < 10 ^ prec ->
  represents a N s -> represents b M t -> represents (mul a b) (N * M) (s + t).
Proof. intros. apply represents_fix_prec; [assumption|]. now apply represents_mul_exact. Qed.

Lemma represents_add (a b : Decimal) (N M s : Z) :
  Z.abs (N + M) < 10 ^ prec ->
  represents a N s -> represents b M s -> represents (add a b) (N + M) s.
Proof. intros. apply represents_fix_prec; [assumption|]. now apply represents_add_exact. Qed.

End DecFacts.

(* ================================================================= *)
(** ** Pricing calculator: properties *)

Module PricingFacts.
Import Pricing.









(** The spec's second scenario: 5 cubic feet, 0.5 labor hours, no distance:
    the computed 67.50 is below the minimum and the subtotal is 150.00. *)
Example minimum_charge_scenario :
  let q := quote_with
             [mkQuoteItem None 1 (Some (mkDec 500 (-2))) (Some (mkDec 50 (-2))) None None]
             (Some (mkDec 0 0)) in
  let q' := calculate_quote_pricing q scenario_rule in
  computed_cost q scenario_rule = mkDec 850000 (-4)
  /\ subtotal q' = mkDec 15000 (-2).
Proof. vm_compute. split; reflexivity. Qed.

(** The loop's first two accumulators do not depend on the price fields nor
    on the third accumulator. *)
Lemma loop_measures (l1 l2 : list QuoteItem) :
  Forall2 same_measures l1 l2 ->
  forall cf lh s1 s2,
    fst (fold_left loop_body l1 (cf, lh, s1)) =
    fst (fold_left loop_body l2 (cf, lh, s2)).
Proof.
  induction 1 as [|a b l1 l2 (Hq & Hc & Hl) _ IH]; intros cf lh s1 s2.
  - reflexivity.
  - cbn [fold_left]. unfold loop_body at 2 4. rewrite Hq, Hc, Hl. apply IH.
Qed.

(** C10: two line-item lists that agree, item by item, on quantity,
    cubic_feet and labor_hours give the same totals whatever their unit_price
    and total_price: the price fields do not reach the computed totals. *)
Theorem prices_do_not_influence_totals (q1 q2 : Quote) (r : PricingRule) :
  Forall2 same_measures (quote_items q1) (quote_items q2) ->
  distance_miles q1 = distance_miles q2 ->
  let a := calculate_quote_pricing q1 r in
  let b := calculate_quote_pricing q2 r in
  total_cubic_feet a = total_cubic_feet b
  /\ total_labor_hours a = total_labor_hours b
  /\ subtotal a = subtotal b
  /\ tax_amount a = tax_amount b
  /\ total_amount a = total_amount b.
Proof.
  intros Hitems Hdist. cbv zeta.
  pose proof (loop_measures _ _ Hitems Dec.zero Dec.zero Dec.zero Dec.zero) as Hm.
  unfold calculate_quote_pricing, distance_cost. fold (loop (quote_items q1)) in Hm.
  fold (loop (quote_items q2)) in Hm.
  destruct (loop (quote_items q1)) as [[cf1 lh1] s1].
  destruct (loop (quote_items q2)) as [[cf2 lh2] s2].
  cbn [fst] in Hm. injection Hm as -> ->. rewrite Hdist.
  cbn [total_cubic_feet total_labor_hours subtotal tax_amount total_amount].
  repeat split.
Qed.

Lemma prices_do_not_influence_totals_witness :
  let cheap := mkQuoteItem (Some "Sofa"%string) 2 (Some (mkDec 3500 (-2)))
                 (Some (mkDec 150 (-2))) (Some (mkDec 100 (-2))) (Some (mkDec 200 (-2))) in
  let dear := mkQuoteItem (Some "Sofa"%string) 2 (Some (mkDec 3500 (-2)))
                 (Some (mkDec 150 (-2))) (Some (mkDec 99999 (-2))) None in
  let a := calculate_quote_pricing (quote_with [cheap] (Some (mkDec 1000 (-2)))) scenario_rule in
  let b := calculate_quote_pricing (quote_with [dear] (Some (mkDec 1000 (-2)))) scenario_rule in
  total_cubic_feet a = total_cubic_feet b
  /\ total_labor_hours a = total_labor_hours b
  /\ subtotal a = subtotal b
  /\ tax_amount a = tax_amount b
  /\ total_amount a = total_amount b.
Proof.
  intros cheap dear.
  apply (prices_do_not_influence_totals
           (quote_with [cheap] (Some (mkDec 1000 (-2))))
           (quote_with [dear] (Some (mkDec 1000 (-2)))) scenario_rule).
  - simpl. constructor; [|constructor]. repeat split.
  - reflexivity.
Defined.

End PricingFacts.

Module ScenarioFacts.
Import Pricing DecFacts.

Lemma small (n : Z) : Z.abs n < 10 ^ 20 -> Z.abs n < 10 ^ Dec.prec.
Proof. intros H. eapply Z.lt_trans; [exact H|]. reflexivity. Qed.

(** C5: with the rule [{8.50, 85.00, 150.00, 2.50}], line items whose
    totals are 100 cubic feet and 5 labor hours, and a distance of 20 miles,
    the calculator yields cubic cost 850.00, labor cost 425.00, distance cost
    50.00, subtotal 1325.00, tax 112.625 and total 1437.625, each compared
    with Decimal's exact [==]. *)
Theorem scenario_totals (q : Quote) (d : Decimal) :
  let q' := calculate_quote_pricing q scenario_rule in
  Dec.eqb (total_cubic_feet q') (Dec.of_int 100) = true ->
  Dec.eqb (total_labor_hours q') (Dec.of_int 5) = true ->
  distance_miles q = Some d ->
  Dec.eqb d (Dec.of_int 20) = true ->
  Dec.eqb (cubic_feet_cost q scenario_rule) (mkDec 85000 (-2)) = true
  /\ Dec.eqb (labor_cost q scenario_rule) (mkDec 42500 (-2)) = true
  /\ Dec.eqb (distance_cost q scenario_rule) (mkDec 5000 (-2)) = true
  /\ Dec.eqb (subtotal q') (mkDec 132500 (-2)) = true
  /\ Dec.eqb (tax_amount q') (mkDec 112625 (-3)) = true
  /\ Dec.eqb (total_amount q') (mkDec 1437625 (-3)) = true.
Proof.
  cbv zeta. intros Hcf Hlh Hd Hd20.
  unfold calculate_quote_pricing, cubic_feet_cost, labor_cost in *.
  destruct (loop (quote_items q)) as [[cf lh] sub].
  cbn [total_cubic_feet total_labor_hours subtotal tax_amount total_amount] in *.
  apply (eqb_represents _ 100 0) in Hcf.
  apply (eqb_represents _ 5 0) in Hlh.
  apply (eqb_represents _ 20 0) in Hd20.
  assert (Hrate : Dec.represents (rate_per_cubic_foot scenario_rule) 850 2) by reflexivity.
  assert (Hlab : Dec.represents (labor_rate_per_hour scenario_rule) 8500 2) by reflexivity.
  assert (Hmile : Dec.represents (mkDec 250 (-2)) 250 2) by reflexivity.
  assert (Htax : Dec.represents tax_rate 85 3) by reflexivity.
  pose proof (represents_mul _ _ 100 850 _ _ (small (100 * 850) eq_refl) Hcf Hrate) as Hcc.
  pose proof (represents_mul _ _ 5 8500 _ _ (small (5 * 8500) eq_refl) Hlh Hlab) as Hlc.
  assert (Hdc : Dec.represents (distance_cost q scenario_rule) (20 * 250) (0 + 2)).
  { unfold distance_cost. rewrite Hd. cbn [distance_rate_per_mile scenario_rule].
    rewrite (represents_truthy _ _ _ Hd20) by lia. cbn [Dec.truthy Dec.coef andb negb Z.eqb].
    apply represents_mul; [apply small; reflexivity | assumption | assumption]. }
  set (dc := distance_cost q scenario_rule) in *.
  pose proof (represents_add _ _ (100 * 850) (5 * 8500) _
                (small (100 * 850 + 5 * 8500) eq_refl) Hcc Hlc) as Hsum1.
  pose proof (represents_add _ _ (100 * 850 + 5 * 8500) (20 * 250) _
                (small (100 * 850 + 5 * 8500 + 20 * 250) eq_refl) Hsum1 Hdc) as Hsum.
  set (computed := Dec.add (Dec.add (Dec.mul cf _) (Dec.mul lh _)) dc) in *.
  change (minimum_charge scenario_rule) with (mkDec 15000 (- (0 + 2))).
  rewrite (ltb_represents _ _ 15000 _ Hsum).
  change (100 * 850 + 5 * 8500 + 20 * 250 <? 15000) with false. cbv iota.
  pose proof (represents_mul _ _ (100 * 850 + 5 * 8500 + 20 * 250) 85 _ _
                (small ((100 * 850 + 5 * 8500 + 20 * 250) * 85) eq_refl) Hsum Htax) as Htx.
  assert (Hsum' : Dec.represents computed (132500 * 10 ^ 3) (2 + 3)).
  { apply represents_scale; [lia|exact Hsum]. }
  pose proof (represents_add _ _ (132500 * 10 ^ 3) ((100 * 850 + 5 * 8500 + 20 * 250) * 85) _
                (small (132500 * 10 ^ 3 + (100 * 850 + 5 * 8500 + 20 * 250) * 85) eq_refl)
                Hsum' Htx) as Htot.
  repeat split.
  - apply (eqb_represents _ 85000 2). exact Hcc.
  - apply (eqb_represents _ 42500 2). exact Hlc.
  - apply (eqb_represents _ 5000 2). exact Hdc.
  - apply (eqb_represents _ 132500 2). exact Hsum.
  - apply (eqb_represents _ 112625 3).
    apply (represents_scale _ 112625 3 2); [lia|exact Htx].
  - apply (eqb_represents _ 1437625 3).
    apply (represents_scale _ 1437625 3 2); [lia|exact Htot].
Qed.

Lemma scenario_totals_witness :
  let q := quote_with
             [mkQuoteItem (Some "Boxes"%string) 4 (Some (mkDec 2500 (-2)))
                (Some (mkDec 125 (-2))) None None]
             (Some (mkDec 2000 (-2))) in
  let q' := calculate_quote_pricing q scenario_rule in
  Dec.eqb (cubic_feet_cost q scenario_rule) (mkDec 85000 (-2)) = true
  /\ Dec.eqb (labor_cost q scenario_rule) (mkDec 42500 (-2)) = true
  /\ Dec.eqb (distance_cost q scenario_rule) (mkDec 5000 (-2)) = true
  /\ Dec.eqb (subtotal q') (mkDec 132500 (-2)) = true
  /\ Dec.eqb (tax_amount q') (mkDec 112625 (-3)) = true
  /\ Dec.eqb (total_amount q') (mkDec 1437625 (-3)) = true.
Proof.
  intros q.
  apply (scenario_totals q (mkDec 2000 (-2))); reflexivity.
Defined.

End ScenarioFacts.


(* ================================================================= *)
(** ** Pricing calculator: more properties *)

Module PricingMoreFacts.
Import Pricing PricingSpec.

Lemma loop_body_unmeasured (a : acc) (item : QuoteItem) :
  measured item = false -> fst (loop_body a item) = fst a.
Proof.
  unfold measured, present, loop_body. intros H.
  apply orb_false_iff in H as [Hc Hl].
  destruct a as [[cf lh] sub].
  destruct (cubic_feet item) as [c|]; [rewrite Hc|];
    (destruct (labor_hours item) as [h|]; [rewrite Hl|]); reflexivity.
Qed.

Lemma loop_body_measures (cf lh s1 s2 : Decimal) (item : QuoteItem) :
  fst (loop_body (cf, lh, s1) item) = fst (loop_body (cf, lh, s2) item).
Proof. reflexivity. Qed.

Lemma fold_filter_measured (items : list QuoteItem) : forall cf lh s1 s2,
  fst (fold_left loop_body (filter measured items) (cf, lh, s1))
  = fst (fold_left loop_body items (cf, lh, s2)).
Proof.
  induction items as [|item items IH]; intros cf lh s1 s2; [reflexivity|].
  cbn [filter fold_left]. destruct (measured item) eqn:M.
  - cbn [fold_left].
    destruct (loop_body (cf, lh, s1) item) as [[cf1 lh1] t1] eqn:E1.
    destruct (loop_body (cf, lh, s2) item) as [[cf2 lh2] t2] eqn:E2.
    pose proof (loop_body_measures cf lh s1 s2 item) as H.
    rewrite E1, E2 in H. cbn in H. injection H as -> ->. apply IH.
  - pose proof (loop_body_unmeasured (cf, lh, s2) item M) as H.
    destruct (loop_body (cf, lh, s2) item) as [[cf2 lh2] t2].
    cbn in H. injection H as -> ->. apply IH.
Qed.

(** The totals are a function of the loop's first two accumulators and the
    distance. *)
Lemma totals_by_measures (q1 q2 : Quote) (r : PricingRule) :
  fst (loop (quote_items q1)) = fst (loop (quote_items q2)) ->
  distance_miles q1 = distance_miles q2 ->
  totals (calculate_quote_pricing q1 r) = totals (calculate_quote_pricing q2 r).
Proof.
  intros Hm Hd. unfold totals, calculate_quote_pricing, distance_cost.
  destruct (loop (quote_items q1)) as [[cf1 lh1] s1].
  destruct (loop (quote_items q2)) as [[cf2 lh2] s2].
  cbn [fst] in Hm. injection Hm as -> ->. rewrite Hd.
  cbn [total_cubic_feet total_labor_hours subtotal tax_amount total_amount].
  reflexivity.
Qed.

(** line items whose cubic_feet and labor_hours are both absent or zero
    do not reach the totals, whatever their quantity and prices: the totals
    of a quote are those of its measured items. *)
Theorem unmeasured_items_do_not_count (q : Quote) (r : PricingRule) :
  totals (calculate_quote_pricing q r)
  = totals (calculate_quote_pricing
              (with_items q (filter measured (quote_items q))) r).
Proof.
  apply totals_by_measures; [|reflexivity].
  unfold loop. cbn [quote_items with_items]. symmetry. apply fold_filter_measured.
Qed.

(** recalculating is idempotent: the stored totals are overwritten, not
    accumulated, so a second pass over the result changes nothing. *)
Theorem recalculation_is_idempotent (q : Quote) (r : PricingRule) :
  calculate_quote_pricing (calculate_quote_pricing q r) r
  = calculate_quote_pricing q r.
Proof.
  unfold calculate_quote_pricing at 1 3. unfold distance_cost.
  assert (Hi : quote_items (calculate_quote_pricing q r) = quote_items q).
  { unfold calculate_quote_pricing. destruct (loop (quote_items q)) as [[? ?] ?].
    reflexivity. }
  assert (Hd : distance_miles (calculate_quote_pricing q r) = distance_miles q).
  { unfold calculate_quote_pricing. destruct (loop (quote_items q)) as [[? ?] ?].
    reflexivity. }
  rewrite Hi, Hd. reflexivity.
Qed.

Lemma fix_prec_zero (e : Z) : Dec.fix_prec (mkDec 0 e) = mkDec 0 e.
Proof. reflexivity. Qed.

Lemma mul_zero_l (e : Z) (b : Decimal) : Dec.coef (Dec.mul (mkDec 0 e) b) = 0.
Proof. unfold Dec.mul, Dec.mul_exact. cbn [Dec.coef Dec.dexp Z.mul]. reflexivity. Qed.

Lemma add_zero_coef (a b : Decimal) :
  Dec.coef a = 0 -> Dec.coef b = 0 -> Dec.coef (Dec.add a b) = 0.
Proof.
  intros Ha Hb. unfold Dec.add, Dec.add_exact. rewrite Ha, Hb.
  cbn [Z.mul Z.add]. reflexivity.
Qed.

Lemma ltb_zero_coef (a b : Decimal) :
  Dec.coef a = 0 -> Dec.ltb a b = (0 <? Dec.coef b).
Proof.
  intros Ha. unfold Dec.ltb, Dec.aligned. rewrite Ha. cbn [Z.mul].
  pose proof (DecFacts.pow10_pos (Dec.dexp b - Z.min (Dec.dexp a) (Dec.dexp b))
                ltac:(lia)) as Hp.
  destruct (Z.ltb_spec 0 (Dec.coef b));
    destruct (Z.ltb_spec 0 (Dec.coef b
                * 10 ^ (Dec.dexp b - Z.min (Dec.dexp a) (Dec.dexp b))));
    try reflexivity; nia.
Qed.

(** a quote with no measured line item and no distance is charged the
    minimum: with a positive minimum charge the subtotal is the minimum
    charge, the tax is 0.085 times it, and both volume and labor totals are
    zero. *)
Theorem empty_quote_pays_minimum (q : Quote) (r : PricingRule) :
  forallb (fun item => negb (measured item)) (quote_items q) = true ->
  present (distance_miles q) = false ->
  0 < Dec.coef (minimum_charge r) ->
  let q' := calculate_quote_pricing q r in
  total_cubic_feet q' = Dec.zero
  /\ total_labor_hours q' = Dec.zero
  /\ subtotal q' = minimum_charge r
  /\ tax_amount q' = Dec.mul (minimum_charge r) tax_rate.
Proof.
  intros Hitems Hdist Hmin. cbv zeta.
  assert (Hloop : fst (loop (quote_items q)) = (Dec.zero, Dec.zero)).
  { unfold loop. rewrite <- (fold_filter_measured _ _ _ Dec.zero Dec.zero).
    replace (filter measured (quote_items q)) with (@nil QuoteItem); [reflexivity|].
    symmetry. induction (quote_items q) as [|i l IH]; [reflexivity|].
    cbn in Hitems. apply andb_true_iff in Hitems as [Hi Hl].
    apply negb_true_iff in Hi. cbn. rewrite Hi. apply IH, Hl. }
  assert (Hdc : distance_cost q r = Dec.zero).
  { unfold distance_cost. unfold present in Hdist.
    destruct (distance_miles q) as [d|]; [|reflexivity].
    rewrite Hdist. destruct (distance_rate_per_mile r); reflexivity. }
  unfold calculate_quote_pricing. rewrite Hdc.
  destruct (loop (quote_items q)) as [[cf lh] sub]. cbn in Hloop.
  injection Hloop as -> ->.
  cbn [total_cubic_feet total_labor_hours subtotal tax_amount].
  rewrite ltb_zero_coef.
  - apply Z.ltb_lt in Hmin. rewrite Hmin. auto.
  - apply add_zero_coef; [apply add_zero_coef; apply mul_zero_l|reflexivity].
Qed.

Lemma empty_quote_pays_minimum_witness :
  let priced := mkQuoteItem (Some "Packing fee"%string) 3 None (Some (mkDec 0 (-2)))
                  (Some (mkDec 2500 (-2))) (Some (mkDec 7500 (-2))) in
  let q' := calculate_quote_pricing (quote_with [priced] (Some (mkDec 0 0)))
              scenario_rule in
  total_cubic_feet q' = Dec.zero
  /\ total_labor_hours q' = Dec.zero
  /\ subtotal q' = mkDec 15000 (-2)
  /\ tax_amount q' = Dec.mul (mkDec 15000 (-2)) tax_rate.
Proof.
  intros priced.
  apply (empty_quote_pays_minimum (quote_with [priced] (Some (mkDec 0 0))) scenario_rule);
    reflexivity.
Defined.

End PricingMoreFacts.
(* ================================================================= *)
(** ** Catalog matcher: properties *)

Module CatalogFacts.
Import Catalog.
Local Open Scope string_scope.

(** Once the best score is not below 0.7, aliases without an exact match
    leave the state alone. *)
Lemma alias_loop_settled (c : ItemCatalog) (label : string) (als : list string)
  (st : match_state) :
  PyFloat.lt (snd st) 0.7%float = false ->
  existsb (fun a => String.eqb (PyStr.lower a) label) als = false ->
  alias_loop c label als st = st.
Proof.
  intros Hst. induction als as [|a als IH]; intros Hex; [reflexivity|].
  cbn [existsb] in Hex. apply orb_false_iff in Hex as [Ha Hex].
  cbn [alias_loop]. rewrite Ha, Hst.
  destruct (PyStr.contains label (PyStr.lower a) || PyStr.contains (PyStr.lower a) label)%bool;
    auto.
Qed.

Lemma catalog_loop_settled (label : string) (post : list ItemCatalog)
  (st : match_state) :
  PyFloat.lt (snd st) 0.7%float = false ->
  forallb (fun c => negb (name_is label c) && negb (has_alias label c)) post = true ->
  catalog_loop label post st = st.
Proof.
  intros Hst. induction post as [|c post IH]; intros Hall; [reflexivity|].
  cbn [forallb] in Hall. apply andb_true_iff in Hall as [Hc Hall].
  apply andb_true_iff in Hc as [Hn Ha].
  apply negb_true_iff in Hn, Ha. unfold name_is in Hn. unfold has_alias in Ha.
  cbn [catalog_loop]. rewrite Hn.
  destruct (aliases c) as [[|a als]|]; auto.
  rewrite alias_loop_settled; auto.
Qed.

(** Entries whose name is not the label are passed over, whatever they do to
    the state. *)
Lemma catalog_loop_app (label : string) (pre rest : list ItemCatalog) :
  forallb (fun c => negb (name_is label c)) pre = true ->
  forall st, exists st',
    catalog_loop label (pre ++ rest) st = catalog_loop label rest st'.
Proof.
  induction pre as [|c pre IH]; intros Hall st.
  - exists st. reflexivity.
  - cbn [forallb] in Hall. apply andb_true_iff in Hall as [Hn Hall].
    apply negb_true_iff in Hn. unfold name_is in Hn.
    cbn [app catalog_loop]. rewrite Hn. apply IH, Hall.
Qed.

(** What the mapping does with a detection that is a dict whose name is a
    str: the scan decides the entry. *)
Lemma map_detection_named (catalog_items : list ItemCatalog)
  (items : list (string * Py.value)) (label : string) :
  Py.lookup "name" items = Some (Py.VStr label) ->
  exists confidence quantity_value bbox,
    map_detection catalog_items (Py.VDict items) =
    Py.Ok (mapped_item_of (Py.VStr label) confidence quantity_value bbox
             (fst (match_label label catalog_items))).
Proof.
  intros Hname. unfold map_detection, match_label. cbn [Py.get Py.bind].
  rewrite Hname. cbn [Py.lower Py.bind].
  destruct (catalog_loop (PyStr.lower label) catalog_items no_match) as [m w].
  eexists _, _, _. reflexivity.
Qed.

Lemma all_from_spec (p : Z -> bool) (fuel : nat) :
  forall c, Py.all_from fuel c p = true ->
  forall x, c <= x < c + Z.of_nat fuel -> p x = true.
Proof.
  induction fuel as [|n IH]; intros c H x Hx; [lia|].
  cbn [Py.all_from] in H. apply andb_true_iff in H as [Hc H].
  destruct (Z.eq_dec x c) as [->|Hne]; [exact Hc|].
  apply (IH (c + 1) H). lia.
Qed.

(** [float(Decimal)] on the volumes 0.01 to 1000.00 of a NUMERIC(8,2)
    column: the float is within half a unit in the last place of the
    decimal. *)
Lemma float_of_volume_check :
  Py.all_from (Z.to_nat 100000) 1
    (fun c => Py.nearest_to (PyFloat.float_of_decimal (mkDec c (-2))) c 100)
  = true.
Proof. vm_compute. reflexivity. Qed.

Lemma float_of_volume (c : Z) :
  0 < c <= 100000 ->
  Py.nearest_to (PyFloat.float_of_decimal (mkDec c (-2))) c 100 = true.
Proof.
  intros Hc.
  apply (all_from_spec
           (fun c => Py.nearest_to (PyFloat.float_of_decimal (mkDec c (-2))) c 100)
           (Z.to_nat 100000) 1 float_of_volume_check).
  lia.
Qed.

(** [float(Decimal('35.10'))] is the float the literal 35.1 denotes. *)
Example float_of_35_10 :
  PyFloat.float_of_decimal (mkDec 3510 (-2)) = 35.1%float
  /\ PyFloat.float_of_decimal (mkDec 300 (-2)) = 3%float
  /\ PyFloat.float_of_decimal (mkDec 1 (-1)) = 0.1%float
  /\ PyFloat.float_of_decimal (mkDec 150 (-2)) = 1.5%float.
Proof. repeat split. Qed.

(** C7, as the matcher has it: in a catalog that holds the entry [{name:
    "Sofa", aliases: ["Couch", "Sectional"]}], where no entry is named
    "couch" and no later entry has "couch" among its aliases, the label
    "couch" is matched to that entry with weight 0.9; when the entry's
    base_cubic_feet is present and not zero, the mapped cubic feet are that
    volume converted to a float: for a volume of two decimals up to 1000.00,
    the float nearest to it. *)
Theorem couch_matches_sofa_alias (pre post : list ItemCatalog)
  (sofa : ItemCatalog) (items : list (string * Py.value)) (b : Decimal) :
  name sofa = "Sofa" ->
  aliases sofa = Some ["Couch"; "Sectional"] ->
  base_cubic_feet sofa = Some b ->
  Dec.truthy b = true ->
  forallb (fun c => negb (name_is "couch" c)) pre = true ->
  forallb (fun c => negb (name_is "couch" c) && negb (has_alias "couch" c)) post = true ->
  Py.lookup "name" items = Some (Py.VStr "couch") ->
  match_label "couch" (pre ++ sofa :: post) = (Some sofa, 0.9%float)
  /\ exists (m : MappedItem) (f : float),
       map_detection (pre ++ sofa :: post) (Py.VDict items) = Py.Ok m
       /\ catalog_item_id m = Some (id sofa)
       /\ cubic_feet m = Some f
       /\ f = PyFloat.float_of_decimal b
       /\ (forall c, 0 < c <= 100000 -> b = mkDec c (-2) ->
           Py.nearest_to f c 100 = true).
Proof.
  intros Hname Hal Hb Htruthy Hpre Hpost Hdet.
  assert (Hscan : match_label "couch" (pre ++ sofa :: post)
                  = (Some sofa, 0.9%float)).
  { unfold match_label. change (PyStr.lower "couch") with "couch".
    destruct (catalog_loop_app "couch" pre (sofa :: post) Hpre no_match) as [st' ->].
    cbn [catalog_loop]. rewrite Hname, Hal.
    change (PyStr.lower "Sofa" =? "couch") with false.
    change (alias_loop sofa "couch" ["Couch"; "Sectional"] st') with (Some sofa, 0.9%float).
    apply catalog_loop_settled; [reflexivity|exact Hpost]. }
  split; [exact Hscan|].
  destruct (map_detection_named (pre ++ sofa :: post) items "couch" Hdet)
    as (confidence & quantity_value & bbox & Hmap).
  rewrite Hscan in Hmap. cbn [fst] in Hmap.
  eexists _, (PyFloat.float_of_decimal b). split; [exact Hmap|].
  cbn [mapped_item_of catalog_item_id cubic_feet option_map].
  rewrite Hb. cbn [truthy_float_of]. rewrite Htruthy.
  repeat split. intros c Hc ->. apply float_of_volume, Hc.
Qed.

Lemma couch_matches_sofa_alias_witness :
  match_label "couch" ([Scenario.lamp] ++ Scenario.sofa :: [Scenario.lamp])
    = (Some Scenario.sofa, 0.9%float)
  /\ exists (m : MappedItem) (f : float),
       map_detection ([Scenario.lamp] ++ Scenario.sofa :: [Scenario.lamp])
         Scenario.couch_detection = Py.Ok m
       /\ catalog_item_id m = Some "c-sofa"
       /\ cubic_feet m = Some f
       /\ f = 35.1%float
       /\ (forall c, 0 < c <= 100000 -> mkDec 3510 (-2) = mkDec c (-2) ->
           Py.nearest_to f c 100 = true).
Proof.
  exact (couch_matches_sofa_alias [Scenario.lamp] [Scenario.lamp] Scenario.sofa
           [("name", Py.VStr "couch"); ("confidence", Py.VFloat 0.95%float);
            ("quantity", Py.VInt 1)]
           (mkDec 3510 (-2))
           eq_refl eq_refl eq_refl eq_refl eq_refl eq_refl eq_refl).
Defined.

(** C7 as stated fails: holding the entry is not enough.  An entry named
    "Couch" takes the match with weight 1.0, a later entry with the alias
    "Couch" takes it with weight 0.9, and for the entry with a volume of
    0.00 the mapped cubic feet are none. *)
Lemma sofa_entry_is_not_always_the_match :
  match_label "couch" [Scenario.sofa; Scenario.couch]
    = (Some Scenario.couch, 1.0%float)
  /\ match_label "couch" [Scenario.sofa; Scenario.loveseat]
     = (Some Scenario.loveseat, 0.9%float)
  /\ match_label "couch" [Scenario.flat_sofa] = (Some Scenario.flat_sofa, 0.9%float)
  /\ base_cubic_feet Scenario.flat_sofa = Some (mkDec 0 (-2))
  /\ exists m : MappedItem,
       map_detection [Scenario.flat_sofa] Scenario.couch_detection = Py.Ok m
       /\ catalog_item_id m = Some "c-sofa"
       /\ cubic_feet m = None.
Proof.
  repeat split. eexists. repeat split.
Qed.

(** The mapped item of the scenario, in full. *)
Example couch_mapped_item :
  map_detection [Scenario.sofa] Scenario.couch_detection =
  Py.Ok {| detected_name := Py.VStr "couch";
           confidence_score := Py.VFloat 0.95%float;
           quantity := Py.VInt 1;
           bounding_box := Py.VNone;
           catalog_item_id := Some "c-sofa";
           catalog_item_name := Some "Sofa";
           cubic_feet := Some 35.1%float;
           mapped_labor_multiplier := 1.5%float;
           mapped_category := Some "Furniture" |}.
Proof. reflexivity. Qed.

(** A detection that is no dict, or whose name is no str, makes the mapping
    raise; a null confidence passes through it. *)
Example malformed_detections :
  map_detection [Scenario.sofa] Scenario.null_name_detection
    = Py.Raise (Py.AttributeError "'NoneType' object has no attribute 'lower'")
  /\ map_detection [Scenario.sofa] (Py.VStr "couch")
     = Py.Raise (Py.AttributeError "'str' object has no attribute 'get'")
  /\ map_detections_to_catalog Py.VNone "t1" [Scenario.sofa]
     = Py.Raise (Py.TypeError "'NoneType' object is not iterable")
  /\ (exists m : MappedItem,
        map_detection [Scenario.sofa] Scenario.unscored_detection = Py.Ok m
        /\ confidence_score m = Py.VNone
        /\ catalog_item_id m = Some "c-sofa").
Proof. repeat split. eexists. repeat split. Qed.

(** The alias loop of an entry only ever selects that entry. *)
Lemma alias_loop_keeps (c : ItemCatalog) (label : string) (als : list string)
  (st : match_state) :
  fst st = Some c -> fst (alias_loop c label als st) = Some c.
Proof.
  revert st. induction als as [|a als IH]; intros st Hst; [exact Hst|].
  cbn [alias_loop].
  destruct (PyStr.lower a =? label); [reflexivity|].
  destruct (PyStr.contains label (PyStr.lower a) || PyStr.contains (PyStr.lower a) label)%bool.
  - apply IH. destruct (PyFloat.lt (snd st) 0.7%float); [reflexivity|exact Hst].
  - apply IH, Hst.
Qed.

(** The empty label is a substring of every alias: any entry with at least
    one alias is matched by it. *)
Lemma empty_label_matches_any_alias (c : ItemCatalog) (a : string) (als : list string) :
  aliases c = Some (a :: als) -> fst (match_label "" [c]) = Some c.
Proof.
  intros Hal. unfold match_label. cbn [PyStr.lower catalog_loop]. rewrite Hal.
  destruct (PyStr.lower (name c) =? ""); [reflexivity|].
  cbn [alias_loop].
  destruct (PyStr.lower a =? ""); [reflexivity|].
  replace (PyStr.contains "" (PyStr.lower a)) with true
    by (destruct (PyStr.lower a); reflexivity).
  cbn [orb]. apply alias_loop_keeps. reflexivity.
Qed.

(** C6, evaluated: the empty label is matched to the only entry of the
    catalog, through the substring rule (weight 0.7), and the mapped item
    carries that entry's id; so does the item of a detection without a
    name. *)
Theorem empty_label_is_matched :
  match_label "" [Scenario.sofa] = (Some Scenario.sofa, 0.7%float)
  /\ (exists m : MappedItem,
        map_detection [Scenario.sofa] Scenario.empty_detection = Py.Ok m
        /\ catalog_item_id m = Some "c-sofa")
  /\ (exists m : MappedItem,
        map_detection [Scenario.sofa] Scenario.unnamed_detection = Py.Ok m
        /\ catalog_item_id m = Some "c-sofa").
Proof. repeat split; eexists; split; reflexivity. Qed.

End CatalogFacts.

(* ================================================================= *)
(** ** Catalog matcher: what a match is *)

Module CatalogMoreFacts.
Import Catalog CatalogSpec.

Lemma lt_07_weight (w : float) :
  is_weight w -> PyFloat.lt w 0.7%float = false.
Proof. intros [H|[H|H]]; rewrite H; reflexivity. Qed.












End CatalogMoreFacts.

(* ================================================================= *)
(** ** Detection routes: properties *)

Module DetectionFacts.
Import Detection.
Local Open Scope string_scope.

(** The item loop: the job fields it leaves alone. *)
Lemma set_failed_keeps (j : DetectionJob) (msg : Py.value) :
  status (set_failed j msg) = failed
  /\ completed_at (set_failed j msg) = completed_at j
  /\ results (set_failed j msg) = results j.
Proof. repeat split. Qed.




(** A failure before the results are stored leaves completed_at null: the
    service answers with a failure, the call raises, the response is no
    JSON object, or a detection cannot be mapped. *)
Example failures_before_completion :
  let run call := detect_auto Scenario.now "t1" "q1" ["m1"] [Scenario.sofa]
                    Scenario.empty_quote call in
  (status (job (run Scenario.vision_failed)),
   completed_at (job (run Scenario.vision_failed)),
   error_message (job (run Scenario.vision_failed)))
  = (failed, None, Py.VStr "model unavailable")
  /\ (status (job (run (Raises "YOLOE service error: timeout"))),
      completed_at (job (run (Raises "YOLOE service error: timeout"))),
      error_message (job (run (Raises "YOLOE service error: timeout"))))
     = (failed, None, Py.VStr "YOLOE service error: timeout")
  /\ (status (job (run (Returns (Py.VList [])))),
      completed_at (job (run (Returns (Py.VList [])))),
      error_message (job (run (Returns (Py.VList [])))))
     = (failed, None, Py.VStr "'list' object has no attribute 'get'")
  /\ (status (job (run (Scenario.vision_answers [Scenario.null_name_detection]))),
      completed_at (job (run (Scenario.vision_answers [Scenario.null_name_detection]))),
      error_message (job (run (Scenario.vision_answers [Scenario.null_name_detection]))))
     = (failed, None, Py.VStr "'NoneType' object has no attribute 'lower'").
Proof. cbv zeta. repeat split. Qed.

(** A failure in the item loop comes after the completion: a matched
    detection whose confidence is null makes the comparison with the
    threshold raise, and the handler stores the job as failed with the
    completed_at, the results and the rows added before it. *)
Example failure_after_completion :
  let out := detect_auto Scenario.now "t1" "q1" ["m1"] [Scenario.sofa]
               Scenario.empty_quote
               (Scenario.vision_answers
                  [Scenario.couch_detection; Scenario.unscored_detection;
                   Scenario.couch_detection]) in
  status (job out) = failed
  /\ completed_at (job out) = Some Scenario.now
  /\ results (job out) <> None
  /\ error_message (job out)
     = Py.VStr "'>' not supported between instances of 'NoneType' and 'float'"
  /\ List.length (added_items out) = 1%nat
  /\ raised out
     = Some (Py.TypeError
               "'>' not supported between instances of 'NoneType' and 'float'").
Proof. cbv zeta. repeat split. discriminate. Qed.

(** Without an exception the item loop adds the items that qualify, in
    order. *)
Lemma auto_add_selects (threshold : float) (quote_id : string)
  (mapped_items : list Catalog.MappedItem) :
  (forall item, In item mapped_items ->
     exists b, qualifies threshold item = Py.Ok b) ->
  auto_add threshold quote_id mapped_items =
  (map (quote_item_of quote_id)
     (filter (fun item =>
                match qualifies threshold item with
                | Py.Ok b => b
                | Py.Raise _ => false
                end) mapped_items),
   None).
Proof.
  induction mapped_items as [|item rest IH]; intros Hok; [reflexivity|].
  cbn [auto_add filter].
  destruct (Hok item (or_introl eq_refl)) as [b Hb]. rewrite Hb.
  rewrite IH by (intros i Hi; apply Hok; right; exact Hi).
  destruct b; reflexivity.
Qed.

(** An item qualifies when it has a catalog match and a confidence above
    the threshold; the comparison never raises on a number. *)
Lemma qualifies_number (threshold : float) (item : Catalog.MappedItem) (f : float) :
  Catalog.confidence_score item = Py.VFloat f ->
  qualifies threshold item =
  Py.Ok (match Catalog.catalog_item_id item with
         | Some i => negb (String.eqb i EmptyString) && PyFloat.gt f threshold
         | None => false
         end).
Proof.
  intros Hf. unfold qualifies. rewrite Hf.
  destruct (Catalog.catalog_item_id item) as [i|]; [|reflexivity].
  destruct (String.eqb i EmptyString); reflexivity.
Qed.

(** The rows added are those of the mapped items that have a catalog match
    and a confidence above the threshold, in order: for a response whose
    detections are mapped to [mapped_items], all with a float confidence. *)
Lemma added_items_are_the_qualifying (add : bool) (threshold : float)
  (now : datetime) (catalog : list Catalog.ItemCatalog) (q : Pricing.Quote)
  (j : DetectionJob) (r detections : Py.value)
  (mapped_items : list Catalog.MappedItem) :
  read_result r (tenant_id j) catalog = Py.Ok (Some (mkResults detections mapped_items)) ->
  (forall item, In item mapped_items ->
     exists f, Catalog.confidence_score item = Py.VFloat f) ->
  added_items (process add threshold now catalog q j (Returns r)) =
  if add then
    map (quote_item_of (quote_id j))
      (filter (fun item =>
                 match Catalog.catalog_item_id item, Catalog.confidence_score item with
                 | Some i, Py.VFloat f =>
                     negb (String.eqb i EmptyString) && PyFloat.gt f threshold
                 | _, _ => false
                 end) mapped_items)
  else [].
Proof.
  intros Hread Hfloat. unfold process.
  change (tenant_id (set_status j processing)) with (tenant_id j).
  rewrite Hread. destruct add; [|reflexivity].
  cbn [res_mapped_items].
  rewrite auto_add_selects.
  - cbn [added_items quote_id set_completed set_status]. f_equal.
    apply filter_ext_in. intros item Hin.
    destruct (Hfloat item Hin) as [f Hf].
    rewrite (qualifies_number threshold item f Hf), Hf.
    destruct (Catalog.catalog_item_id item); reflexivity.
  - intros item Hin. destruct (Hfloat item Hin) as [f Hf].
    rewrite (qualifies_number threshold item f Hf). eexists. reflexivity.
Qed.

(** No route touches the quote's stored totals. *)
Lemma quote_is_untouched (add : bool) (threshold : float) (now : datetime)
  (catalog : list Catalog.ItemCatalog) (q : Pricing.Quote) (j : DetectionJob)
  (call : call_result) :
  quote (process add threshold now catalog q j call) = q.
Proof.
  unfold process. destruct call as [r|msg]; [|reflexivity].
  destruct (read_result r (tenant_id (set_status j processing)) catalog)
    as [[res|]|e]; [| |reflexivity].
  - destruct add; [|reflexivity].
    destruct (auto_add threshold
                (quote_id (set_completed (set_status j processing) res now))
                (res_mapped_items res)) as [added [e|]]; reflexivity.
  - destruct (Py.get r "error" (Py.VStr "Unknown error")); reflexivity.
Qed.

(** The thresholds are strict and differ by route: a matched item of
    confidence 0.75 is added by the text route and not by the automatic
    one; one of confidence 0.7 by neither. *)
Example thresholds_by_route :
  let det c := Py.VDict [("name", Py.VStr "couch"); ("confidence", Py.VFloat c)] in
  let text c := detect_text true "sofas" Scenario.now "t1" "q1" ["m1"]
                  [Scenario.sofa] Scenario.empty_quote
                  (Scenario.vision_answers [det c]) in
  let auto c := detect_auto Scenario.now "t1" "q1" ["m1"]
                  [Scenario.sofa] Scenario.empty_quote
                  (Scenario.vision_answers [det c]) in
  List.length (added_items (text 0.75%float)) = 1%nat
  /\ List.length (added_items (auto 0.75%float)) = 0%nat
  /\ List.length (added_items (text 0.7%float)) = 0%nat
  /\ List.length (added_items (auto 0.8%float)) = 0%nat
  /\ List.length (added_items (auto 0.81%float)) = 1%nat.
Proof. cbv zeta. repeat split. Qed.

(** C3, evaluated: a text job with the auto-add flag whose detection of a
    couch (confidence 0.95) matches the catalog adds one line item of 35.1
    cubic feet to the quote, and leaves the quote's stored totals as they
    were: no recalculation takes place. *)
Theorem auto_add_leaves_totals_stale :
  let out := detect_text true "sofas" Scenario.now "t1" "q1" ["m1"]
               [Scenario.sofa] Scenario.empty_quote Scenario.vision_ok in
  added_items out =
    [ {| qi_quote_id := "q1"; qi_item_catalog_id := Some "c-sofa";
         qi_detected_name := Py.VStr "couch"; qi_quantity := Py.VInt 1;
         qi_cubic_feet := Some (PyFloat.float_of_decimal (mkDec 3510 (-2)));
         qi_confidence_score := Py.VFloat 0.95%float |} ]
  /\ quote out = Scenario.empty_quote
  /\ Pricing.total_cubic_feet (quote out) = Dec.zero
  /\ Pricing.subtotal (quote out) = Dec.zero
  /\ Pricing.subtotal
       (Pricing.calculate_quote_pricing
          (Pricing.quote_with
             [Pricing.mkQuoteItem (Some "couch") 1 (Some (mkDec 3510 (-2))) None None None]
             (Some (mkDec 0 0)))
          Pricing.scenario_rule) = mkDec 2983500 (-4).
Proof. cbv zeta. repeat split. Qed.

End DetectionFacts.

(* ================================================================= *)
(** ** Detection routes: errors and the item loop *)

Module DetectionMoreFacts.
Import Detection.
Local Open Scope string_scope.


(** The rows the item loop adds are rows of mapped items that have a
    catalog match, in the order of the mapped items, and stop at the first
    item whose confidence cannot be compared. *)
Lemma auto_add_prefix (threshold : float) (quote_id : string)
  (mapped_items : list Catalog.MappedItem) :
  forall row, In row (fst (auto_add threshold quote_id mapped_items)) ->
  exists item,
    In item mapped_items
    /\ row = quote_item_of quote_id item
    /\ qualifies threshold item = Py.Ok true.
Proof.
  induction mapped_items as [|item rest IH]; intros row Hrow; [destruct Hrow|].
  cbn [auto_add] in Hrow.
  destruct (qualifies threshold item) as [[|]|e] eqn:Q.
  - destruct (auto_add threshold quote_id rest) as [added e'].
    cbn [fst] in *. destruct Hrow as [<-|Hrow].
    + exists item. repeat split; [left; reflexivity|exact Q].
    + destruct (IH row Hrow) as (i & Hi & Hr & Hq).
      exists i. repeat split; [right; exact Hi|exact Hr|exact Hq].
  - destruct (IH row Hrow) as (i & Hi & Hr & Hq).
    exists i. repeat split; [right; exact Hi|exact Hr|exact Hq].
  - destruct Hrow.
Qed.

(** Every row a route adds to the quote carries the id of a catalog entry:
    a detection without a catalog match is never turned into a line item,
    whatever its confidence. *)
Theorem added_items_have_a_catalog_match (add : bool) (threshold : float)
  (now : datetime) (catalog : list Catalog.ItemCatalog) (q : Pricing.Quote)
  (j : DetectionJob) (call : call_result) (row : NewQuoteItem) :
  In row (added_items (process add threshold now catalog q j call)) ->
  qi_quote_id row = quote_id j
  /\ exists i, qi_item_catalog_id row = Some i /\ i <> EmptyString.
Proof.
  unfold process. destruct call as [r|msg]; [|intros []].
  destruct (read_result r (tenant_id (set_status j processing)) catalog)
    as [[res|]|e]; [| |intros []].
  - assert (Hrows : forall added,
              added = fst (auto_add threshold (quote_id j) (res_mapped_items res)) ->
              In row added ->
              qi_quote_id row = quote_id j
              /\ exists i, qi_item_catalog_id row = Some i /\ i <> EmptyString).
    { intros added -> Hin.
      destruct (auto_add_prefix _ _ _ _ Hin) as (item & _ & -> & Hq).
      split; [reflexivity|]. cbn [quote_item_of qi_item_catalog_id].
      unfold qualifies in Hq.
      destruct (Catalog.catalog_item_id item) as [i|]; [|discriminate].
      exists i. split; [reflexivity|].
      intros ->. discriminate. }
    destruct add; [|intros []].
    change (quote_id (set_completed (set_status j processing) res now))
      with (quote_id j).
    destruct (auto_add threshold (quote_id j) (res_mapped_items res))
      as [added [e|]] eqn:A; cbn [added_items]; apply Hrows; reflexivity.
  - destruct (Py.get r "error" (Py.VStr "Unknown error")); intros [].
Qed.

Lemma added_items_have_a_catalog_match_witness :
  let row := {| qi_quote_id := "q1"; qi_item_catalog_id := Some "c-sofa";
                qi_detected_name := Py.VStr "couch"; qi_quantity := Py.VInt 1;
                qi_cubic_feet := Some 35.1%float;
                qi_confidence_score := Py.VFloat 0.95%float |} in
  qi_quote_id row = "q1"
  /\ exists i, qi_item_catalog_id row = Some i /\ i <> EmptyString.
Proof.
  intros row.
  apply (added_items_have_a_catalog_match true 0.8%float Scenario.now
           [Scenario.sofa] Scenario.empty_quote
           (create_detection_job "t1" "q1" ["m1"] auto None)
           Scenario.vision_ok row).
  left. reflexivity.
Defined.

End DetectionMoreFacts.

(* ================================================================= *)
(** ** Quote sequence generator: properties *)

Module QuoteNumberFacts.
Import QuoteNumber.
Local Open Scope string_scope.

(** Two callers that generate before either commits are handed the same
    number, whatever the table holds. *)
Lemma generate_before_commit_repeats (now : datetime) (tenant : string)
  (t : list QuoteRow) (c1 c2 : nat) :
  numbers_for tenant (run now [Generate c1 tenant; Generate c2 tenant] (initial t))
  = [generate_quote_number now tenant t; generate_quote_number now tenant t].
Proof.
  unfold numbers_for, run, initial. cbn. rewrite String.eqb_refl. reflexivity.
Qed.

(** Past 9999 the order of the character codes puts "...9999" above
    "...10000": the generator, called after every commit, returns 10000
    again. *)
Lemma sequence_overflow_repeats :
  generate_quote_number Scenario.now "t1"
    [mkQuoteRow "t1" "Q2026119999"; mkQuoteRow "t1" "Q20261110000"]
  = "Q20261110000".
Proof. reflexivity. Qed.

(** C1, evaluated: two concurrent quote creations of one tenant in one
    month, each generating its number before the other commits, are handed
    the same number; the second commit is then rejected by the unique
    constraint. *)
Theorem concurrent_callers_get_same_number :
  let st := run Scenario.now
              [Generate 1 "t1"; Generate 2 "t1"; Commit 1; Commit 2]
              (initial []) in
  numbers_for "t1" st = ["Q2026110001"; "Q2026110001"]
  /\ ~ NoDup (numbers_for "t1" st)
  /\ table st = [mkQuoteRow "t1" "Q2026110001"].
Proof.
  cbv zeta. split; [reflexivity|]. split; [|reflexivity].
  change (numbers_for "t1" _) with ["Q2026110001"; "Q2026110001"].
  intros H. inversion H as [|x l Hin _]. apply Hin. left. reflexivity.
Qed.

(** Called one at a time, each after the previous commit, the generator
    counts up. *)
Example sequential_callers_count_up :
  numbers_for "t1"
    (run Scenario.now [Generate 1 "t1"; Commit 1; Generate 2 "t1"; Commit 2]
       (initial [mkQuoteRow "t1" "Q2026110041"; mkQuoteRow "t2" "Q2026110099"]))
  = ["Q2026110042"; "Q2026110043"].
Proof. reflexivity. Qed.

End QuoteNumberFacts.


(* ================================================================= *)
(** ** Python strings and quote numbers: more properties *)

Module PyStrFacts.
Import PyStr.
Local Open Scope string_scope.

Lemma digit_char_digit (d : Z) :
  0 <= d <= 9 -> is_digit (digit_char d) = true /\ digit_val (digit_char d) = d.
Proof.
  intros H.
  assert (E : d = 0 \/ d = 1 \/ d = 2 \/ d = 3 \/ d = 4 \/ d = 5 \/ d = 6 \/ d = 7
              \/ d = 8 \/ d = 9) by lia.
  repeat (destruct E as [-> | E]; [split; reflexivity|]). subst. split; reflexivity.
Qed.

(** Reading the digits [str] wrote gives the number back, whatever follows. *)
Lemma parse_digits_aux (fuel : nat) : forall (n : Z) (acc : string) (b : bool),
  0 <= n < 2 ^ Z.of_nat (S fuel) ->
  parse_digits (digits_aux (S fuel) n acc) 0 b = parse_digits acc n true.
Proof.
  induction fuel as [|f IH]; intros n acc b Hn.
  - assert (Hn' : n = 0 \/ n = 1) by (change (2 ^ Z.of_nat 1) with 2 in Hn; lia).
    destruct Hn' as [-> | ->]; reflexivity.
  - cbn [digits_aux].
    pose proof (Z.mod_pos_bound n 10 ltac:(lia)) as Hm.
    pose proof (Z.div_mod n 10 ltac:(lia)) as Hdm.
    destruct (digit_char_digit (n mod 10) ltac:(lia)) as [Hd Hv].
    destruct (Z.eqb_spec (n / 10) 0) as [E|E].
    + cbn [parse_digits]. rewrite Hd, Hv. f_equal. lia.
    + change (if (n / 10 / 10 =? 0)%Z
              then String (digit_char (n / 10 mod 10)) (String (digit_char (n mod 10)) acc)
              else digits_aux f (n / 10 / 10)
                     (String (digit_char (n / 10 mod 10))
                        (String (digit_char (n mod 10)) acc)))
        with (digits_aux (S f) (n / 10) (String (digit_char (n mod 10)) acc)).
      rewrite IH.
      * cbn [parse_digits]. rewrite Hd, Hv. f_equal. lia.
      * rewrite Nat2Z.inj_succ, Z.pow_succ_r in Hn by lia. lia.
Qed.

Lemma parse_str_nonneg (n : Z) (b : bool) :
  0 <= n -> parse_digits (str_nonneg n) 0 b = Some n.
Proof.
  intros Hn. unfold str_nonneg. rewrite parse_digits_aux; [reflexivity|].
  split; [exact Hn|].
  rewrite Nat2Z.inj_succ, Z2Nat.id by apply Z.log2_nonneg.
  destruct (Z.eq_dec n 0) as [->|]; [reflexivity|]. apply Z.log2_spec. lia.
Qed.

Lemma parse_zeros (k : nat) (s : string) (b : bool) :
  (forall b', parse_digits s 0 b' = parse_digits s 0 true) ->
  parse_digits (zeros k ++ s) 0 b = parse_digits s 0 true.
Proof.
  intros Hs. revert b. induction k as [|k IH]; intros b; [apply Hs|].
  cbn. apply IH.
Qed.

Lemma no_space_of_digit (c : Ascii.ascii) : is_digit c = true -> is_space c = false.
Proof.
  unfold is_digit, is_space. intros H. apply andb_true_iff in H as [H1 H2].
  apply Nat.leb_le in H1, H2.
  destruct (Nat.leb_spec 9 (Ascii.nat_of_ascii c)), (Nat.leb_spec (Ascii.nat_of_ascii c) 13),
    (Nat.leb_spec 28 (Ascii.nat_of_ascii c)), (Nat.leb_spec (Ascii.nat_of_ascii c) 32);
    cbn; try reflexivity; lia.
Qed.

Lemma all_digits_app (a b : string) :
  QuoteNumberSpec.all_digits (a ++ b)
  = QuoteNumberSpec.all_digits a && QuoteNumberSpec.all_digits b.
Proof.
  induction a as [|c a IH]; [reflexivity|]. cbn. rewrite IH. apply andb_assoc.
Qed.

Lemma all_digits_rev_append (s acc : string) :
  QuoteNumberSpec.all_digits (rev_append s acc)
  = QuoteNumberSpec.all_digits s && QuoteNumberSpec.all_digits acc.
Proof.
  revert acc. induction s as [|c s IH]; intros acc; [reflexivity|].
  cbn. rewrite IH. cbn.
  destruct (is_digit c), (QuoteNumberSpec.all_digits s), (QuoteNumberSpec.all_digits acc);
    reflexivity.
Qed.

Lemma rev_append_involutive (s a b : string) :
  rev_append (rev_append s a) b = rev_append a (s ++ b).
Proof.
  revert a b. induction s as [|c s IH]; intros a b; [reflexivity|].
  cbn. rewrite IH. reflexivity.
Qed.

Lemma append_empty_r (s : string) : s ++ "" = s.
Proof. induction s as [|c s IH]; [reflexivity|]. cbn. now rewrite IH. Qed.

Lemma lstrip_digits (s : string) :
  QuoteNumberSpec.all_digits s = true -> lstrip s = s.
Proof.
  destruct s as [|c s]; [reflexivity|]. cbn. intros H.
  apply andb_true_iff in H as [H _]. rewrite (no_space_of_digit c H). reflexivity.
Qed.

Lemma strip_digits (s : string) :
  QuoteNumberSpec.all_digits s = true -> strip s = s.
Proof.
  intros H. unfold strip, rev. rewrite (lstrip_digits s H).
  rewrite lstrip_digits.
  - rewrite rev_append_involutive. cbn. apply append_empty_r.
  - rewrite all_digits_rev_append, H. reflexivity.
Qed.

Lemma all_digits_aux (fuel : nat) : forall (n : Z) (acc : string),
  0 <= n -> QuoteNumberSpec.all_digits acc = true ->
  QuoteNumberSpec.all_digits (digits_aux fuel n acc) = true.
Proof.
  induction fuel as [|f IH]; intros n acc Hn Hacc; [exact Hacc|].
  cbn [digits_aux].
  pose proof (Z.mod_pos_bound n 10 ltac:(lia)) as Hm.
  destruct (digit_char_digit (n mod 10) ltac:(lia)) as [Hd _].
  assert (Hacc' : QuoteNumberSpec.all_digits (String (digit_char (n mod 10)) acc) = true).
  { cbn [QuoteNumberSpec.all_digits]. rewrite Hd, Hacc. reflexivity. }
  destruct (n / 10 =? 0)%Z; [exact Hacc'|].
  apply IH; [apply Z.div_pos; lia|exact Hacc'].
Qed.

Lemma all_digits_zeros (k : nat) : QuoteNumberSpec.all_digits (zeros k) = true.
Proof. induction k as [|k IH]; [reflexivity|exact IH]. Qed.

Lemma format_0d_nonneg (w : nat) (n : Z) :
  0 <= n ->
  format_0d w n = zeros (w - 0 - String.length (str_nonneg n)) ++ str_nonneg n.
Proof.
  intros Hn. unfold format_0d.
  replace (n <? 0)%Z with false by (symmetry; apply Z.ltb_ge; lia).
  rewrite Z.abs_eq by lia. reflexivity.
Qed.

Lemma all_digits_format (w : nat) (n : Z) :
  0 <= n -> QuoteNumberSpec.all_digits (format_0d w n) = true.
Proof.
  intros Hn. rewrite format_0d_nonneg by exact Hn.
  rewrite all_digits_app, all_digits_zeros. cbn [andb]. unfold str_nonneg.
  apply all_digits_aux; [exact Hn|reflexivity].
Qed.

(** X: [int] reads back what the zero-padded format wrote:
    [int(f"{n:0wd}") == n] for every width and every [n >= 0]. *)
Theorem int_of_formatted (w : nat) (n : Z) :
  0 <= n -> py_int (format_0d w n) = Some n.
Proof.
  intros Hn.
  assert (Hparse : parse_digits (format_0d w n) 0 false = Some n).
  { rewrite format_0d_nonneg by exact Hn.
    rewrite parse_zeros.
    - apply parse_str_nonneg, Hn.
    - intros b'. rewrite !parse_str_nonneg by exact Hn. reflexivity. }
  unfold py_int. rewrite strip_digits by (apply all_digits_format, Hn).
  pose proof (all_digits_format w n Hn) as Hall.
  destruct (format_0d w n) as [|c r]; [discriminate Hparse|].
  cbn in Hall. apply andb_true_iff in Hall as [Hc _].
  destruct (Ascii.eqb_spec c "+") as [->|_]; [discriminate Hc|].
  destruct (Ascii.eqb_spec c "-") as [->|_]; [discriminate Hc|].
  exact Hparse.
Qed.

Lemma int_of_formatted_witness : py_int (format_0d 4 42) = Some 42.
Proof. apply (int_of_formatted 4 42). lia. Defined.

End PyStrFacts.

Module QuoteNumberMoreFacts.
Import QuoteNumber QuoteNumberSpec PyStrFacts.
Local Open Scope string_scope.

Lemma format_four_check :
  forallb (fun i => PyStr.format_0d 4 (Z.of_nat i) =? four_digits (Z.of_nat i))
    (seq 0 (Z.to_nat 10000)) = true.
Proof. vm_compute. reflexivity. Qed.

Lemma format_four (k : Z) :
  (0 <= k <= 9999)%Z -> PyStr.format_0d 4 k = four_digits k.
Proof.
  intros Hk. pose proof format_four_check as H.
  rewrite forallb_forall in H. specialize (H (Z.to_nat k)).
  rewrite Z2Nat.id in H by lia. apply String.eqb_eq, H.
  apply in_seq. lia.
Qed.

Lemma digit_compare (x y : Z) :
  (0 <= x <= 9)%Z -> (0 <= y <= 9)%Z ->
  Ascii.compare (PyStr.digit_char x) (PyStr.digit_char y) = (x ?= y)%Z.
Proof.
  intros Hx Hy.
  assert (Ex : (x = 0 \/ x = 1 \/ x = 2 \/ x = 3 \/ x = 4 \/ x = 5 \/ x = 6 \/ x = 7
               \/ x = 8 \/ x = 9)%Z) by lia.
  assert (Ey : (y = 0 \/ y = 1 \/ y = 2 \/ y = 3 \/ y = 4 \/ y = 5 \/ y = 6 \/ y = 7
               \/ y = 8 \/ y = 9)%Z) by lia.
  repeat (destruct Ex as [-> | Ex]);
    repeat (destruct Ey as [-> | Ey]); subst; reflexivity.
Qed.

(** Four-digit strings are ordered like the numbers they write. *)
Lemma ltb_four_digits (a b : Z) :
  (0 <= a <= 9999)%Z -> (0 <= b <= 9999)%Z ->
  String.ltb (four_digits a) (four_digits b) = (a <? b)%Z.
Proof.
  intros Ha Hb. unfold String.ltb, four_digits. cbn [String.compare].
  rewrite !digit_compare by (Z.to_euclidean_division_equations; lia).
  destruct (Z.compare_spec (a / 1000) (b / 1000));
    destruct (Z.compare_spec (a / 100 mod 10) (b / 100 mod 10));
    destruct (Z.compare_spec (a / 10 mod 10) (b / 10 mod 10));
    destruct (Z.compare_spec (a mod 10) (b mod 10));
    destruct (Z.ltb_spec a b); try reflexivity; exfalso;
    Z.to_euclidean_division_equations; lia.
Qed.

Lemma ascii_compare_refl (c : Ascii.ascii) : Ascii.compare c c = Eq.
Proof. unfold Ascii.compare. apply N.compare_refl. Qed.

Lemma ltb_common_prefix (p x y : string) :
  String.ltb (p ++ x) (p ++ y) = String.ltb x y.
Proof.
  unfold String.ltb. induction p as [|c p IH]; [reflexivity|].
  cbn [append String.compare]. rewrite ascii_compare_refl. exact IH.
Qed.

Lemma prefix_app (p s : string) : String.prefix p (p ++ s) = true.
Proof.
  induction p as [|c p IH]; [destruct s; reflexivity|].
  cbn. destruct (Ascii.ascii_dec c c); [exact IH|congruence].
Qed.

Lemma drop_app (p s : string) : PyStr.drop (String.length p) (p ++ s) = s.
Proof. induction p as [|c p IH]; [reflexivity|exact IH]. Qed.

Section Month.

Variables (now : datetime) (tenant : string).

Let p : string := prefix_of now.

(** A row of the generator's form, with its sequence. *)
Let formed (bound : Z) (row : QuoteRow) : Prop :=
  (1 <= sequence_of now row <= bound)%Z
  /\ quote_number row = p ++ PyStr.format_0d 4 (sequence_of now row).

Lemma sequence_of_formatted (t : string) (k : Z) :
  (0 <= k)%Z -> sequence_of now (mkQuoteRow t (p ++ PyStr.format_0d 4 k)) = k.
Proof.
  intros Hk. unfold sequence_of. cbn [quote_number]. fold p.
  rewrite drop_app, int_of_formatted by exact Hk. reflexivity.
Qed.

Lemma formed_of_well_numbered (bound : Z) (table : list QuoteRow) (row : QuoteRow) :
  well_numbered bound now tenant table ->
  In row (matching tenant p table) -> formed bound row.
Proof.
  intros Hwf Hin. unfold matching in Hin. apply filter_In in Hin as [Hin Hm].
  apply andb_true_iff in Hm as [Ht Hp]. apply String.eqb_eq in Ht.
  destruct (Hwf row Hin Ht Hp) as (k & Hk & Hnum).
  assert (Hseq : sequence_of now row = k).
  { unfold sequence_of. rewrite Hnum. fold p.
    rewrite drop_app, int_of_formatted by lia. reflexivity. }
  unfold formed. rewrite Hseq. auto.
Qed.

Lemma ltb_formed (bound : Z) (a b : QuoteRow) :
  (bound <= 9999)%Z -> formed bound a -> formed bound b ->
  String.ltb (quote_number a) (quote_number b)
  = (sequence_of now a <? sequence_of now b)%Z.
Proof.
  intros Hb [Ha1 Ha2] [Hb1 Hb2]. rewrite Ha2, Hb2, ltb_common_prefix.
  rewrite !format_four by lia. apply ltb_four_digits; lia.
Qed.

(** The scan for the latest row returns a row of greatest sequence. *)
Lemma first_desc_greatest (bound : Z) (rows : list QuoteRow) :
  (bound <= 9999)%Z ->
  forall best, formed bound best -> Forall (formed bound) rows ->
  exists r,
    fold_left (fun best q =>
                 match best with
                 | None => Some q
                 | Some b => if String.ltb (quote_number b) (quote_number q)
                             then Some q else Some b
                 end) rows (Some best) = Some r
    /\ In r (best :: rows)
    /\ forall x, In x (best :: rows) -> (sequence_of now x <= sequence_of now r)%Z.
Proof.
  intros Hbound. induction rows as [|q rows IH]; intros best Hbest Hrows.
  - exists best. cbn. split; [reflexivity|]. split; [auto|].
    intros x [<-|[]]. lia.
  - inversion Hrows as [|? ? Hq Hrest]; subst. cbn [fold_left].
    rewrite (ltb_formed bound best q Hbound Hbest Hq).
    destruct (Z.ltb_spec (sequence_of now best) (sequence_of now q)) as [Hlt|Hge].
    + destruct (IH q Hq Hrest) as (r & Hr & Hin & Hmax).
      exists r. split; [exact Hr|]. split; [right; exact Hin|].
      intros x [<-|Hx]; [|apply Hmax, Hx].
      specialize (Hmax q (or_introl eq_refl)). lia.
    + destruct (IH best Hbest Hrest) as (r & Hr & Hin & Hmax).
      exists r. split; [exact Hr|]. split.
      * destruct Hin as [<-|Hin]; [left; reflexivity|right; right; exact Hin].
      * intros x [<-|[<-|Hx]].
        -- apply Hmax. left. reflexivity.
        -- specialize (Hmax best (or_introl eq_refl)). lia.
        -- apply Hmax. right. exact Hx.
Qed.

(** What the generator returns on a well-numbered table: the prefix and
    the sequence after the greatest one of the month. *)
Lemma generate_next (bound : Z) (table : list QuoteRow) :
  (0 <= bound <= 9999)%Z ->
  well_numbered bound now tenant table ->
  exists k,
    generate_quote_number now tenant table = p ++ PyStr.format_0d 4 k
    /\ (1 <= k <= bound + 1)%Z
    /\ forall x, In x (matching tenant p table) ->
         formed bound x /\ (sequence_of now x < k)%Z.
Proof.
  intros Hbound Hwf. unfold generate_quote_number. fold p. unfold first_desc.
  pose proof (fun row => formed_of_well_numbered bound table row Hwf) as Hformed.
  destruct (matching tenant p table) as [|best rows] eqn:M.
  - exists 1%Z. cbn [fold_left]. split; [reflexivity|]. split; [lia|].
    intros x [].
  - cbn [fold_left].
    assert (Hbest : formed bound best) by (apply Hformed; left; reflexivity).
    assert (Hrows : Forall (formed bound) rows).
    { apply Forall_forall. intros x Hx. apply Hformed. right. exact Hx. }
    destruct (first_desc_greatest bound rows ltac:(lia) best Hbest Hrows)
      as (r & -> & Hin & Hmax).
    destruct (Hformed r Hin) as [Hr1 Hr2].
    exists (sequence_of now r + 1)%Z.
    rewrite Hr2 at 1. rewrite drop_app, int_of_formatted by lia.
    split; [reflexivity|]. split; [lia|].
    intros x Hx. split; [apply Hformed, Hx|]. specialize (Hmax x Hx). lia.
Qed.

(** The generated number on a well-numbered table. *)
Lemma generate_fresh (bound : Z) (table : list QuoteRow) :
  (0 <= bound <= 9998)%Z ->
  well_numbered bound now tenant table ->
  let n := generate_quote_number now tenant table in
  (exists k, (1 <= k <= bound + 1)%Z /\ n = p ++ PyStr.format_0d 4 k)
  /\ (forall row, In row table -> tenant_id row = tenant ->
        String.prefix p (quote_number row) = true ->
        String.ltb (quote_number row) n = true)
  /\ (forall row, In row table -> tenant_id row = tenant -> quote_number row <> n).
Proof.
  intros Hbound Hwf. cbv zeta.
  destruct (generate_next bound table ltac:(lia) Hwf) as (k & Hn & Hk & Hless).
  rewrite Hn.
  assert (Hlt : forall row, In row table -> tenant_id row = tenant ->
                  String.prefix p (quote_number row) = true ->
                  String.ltb (quote_number row) (p ++ PyStr.format_0d 4 k) = true).
  { intros row Hin Ht Hp.
    assert (Hm : In row (matching tenant p table)).
    { unfold matching. apply filter_In. split; [exact Hin|].
      rewrite Hp, andb_true_r. apply String.eqb_eq, Ht. }
    destruct (Hless row Hm) as [[Hs1 Hs2] Hsk].
    rewrite Hs2, ltb_common_prefix, !format_four by lia.
    rewrite ltb_four_digits by lia. apply Z.ltb_lt, Hsk. }
  split; [exists k; split; [lia|reflexivity]|]. split; [exact Hlt|].
  intros row Hin Ht Heq.
  destruct (String.prefix p (quote_number row)) eqn:Hp.
  - specialize (Hlt row Hin Ht Hp). rewrite Heq in Hlt.
    rewrite ltb_common_prefix, format_four, ltb_four_digits in Hlt by lia.
    apply Z.ltb_lt in Hlt. lia.
  - rewrite Heq, prefix_app in Hp. discriminate.
Qed.

(** X: on a table whose numbers of the month have the generator's form
    with sequences up to 9998, the generated number is new for the tenant:
    it is the month prefix with the next sequence, it sorts after every
    number of the tenant in that month, and no quote of the tenant carries
    it. *)
Theorem generated_number_is_fresh (table : list QuoteRow) :
  well_numbered 9998 now tenant table ->
  let n := generate_quote_number now tenant table in
  (exists k, (1 <= k <= 9999)%Z /\ n = prefix_of now ++ PyStr.format_0d 4 k)
  /\ (forall row, In row table -> tenant_id row = tenant ->
        String.prefix (prefix_of now) (quote_number row) = true ->
        String.ltb (quote_number row) n = true)
  /\ (forall row, In row table -> tenant_id row = tenant -> quote_number row <> n).
Proof.
  intros Hwf. exact (generate_fresh 9998 table ltac:(lia) Hwf).
Qed.

(** What the schedule keeps true, with [bound] the greatest sequence so
    far. *)
Let invariant (bound : Z) (st : state) : Prop :=
  well_numbered bound now tenant (table st)
  /\ month_owned now tenant (table st)
  /\ (forall n, In n (numbers_for tenant st) ->
        exists row, In row (table st) /\ tenant_id row = tenant
                    /\ quote_number row = n)
  /\ NoDup (numbers_for tenant st).

Lemma number_taken_false (n : string) (t : list QuoteRow) :
  (forall row, In row t -> quote_number row <> n) -> number_taken n t = false.
Proof.
  intros H. unfold number_taken. induction t as [|r t IH]; [reflexivity|].
  cbn. rewrite IH by (intros row Hr; apply H; right; exact Hr).
  rewrite orb_false_r. apply String.eqb_neq. apply H. left. reflexivity.
Qed.

(** One caller: generate, then commit. *)
Lemma invariant_step (bound : Z) (st : state) (c : nat) :
  (0 <= bound <= 9998)%Z ->
  invariant bound st ->
  let st' := step now (step now st (Generate c tenant)) (Commit c) in
  invariant (bound + 1) st'
  /\ List.length (numbers_for tenant st') = S (List.length (numbers_for tenant st)).
Proof.
  intros Hbound (Hwf & Hown & Hin & Hnd). cbv zeta.
  destruct (generate_fresh bound (table st) Hbound Hwf) as ((k & Hk & Hn) & _ & Hfresh).
  cbv zeta in Hn, Hfresh.
  set (n := generate_quote_number now tenant (table st)) in *.
  assert (Hfree : number_taken n (table st) = false).
  { apply number_taken_false. intros row Hrow Heq.
    destruct (String.eqb_spec (tenant_id row) tenant) as [Ht|Ht].
    - exact (Hfresh row Hrow Ht Heq).
    - apply Ht, (Hown row Hrow). rewrite Heq, Hn. apply prefix_app. }
  set (st' := mkState (table st ++ [mkQuoteRow tenant n])%list
                ((c, mkQuoteRow tenant n) :: pending st)
                (returned st ++ [(c, tenant, n)])%list).
  assert (Hst' : step now (step now st (Generate c tenant)) (Commit c) = st').
  { cbn [step table pending returned lookup_pending]. fold n.
    rewrite Nat.eqb_refl. cbn [quote_number]. rewrite Hfree. reflexivity. }
  rewrite Hst'.
  assert (Hnums : numbers_for tenant st' = (numbers_for tenant st ++ [n])%list).
  { unfold numbers_for, st'. cbn [returned]. rewrite filter_app, map_app. cbn.
    rewrite String.eqb_refl. reflexivity. }
  split; [|rewrite Hnums, length_app; cbn; lia].
  unfold invariant. rewrite Hnums. cbn [table st'].
  split; [|split; [|split]].
  - intros row Hrow Ht Hp. apply in_app_or in Hrow as [Hrow|[<-|[]]].
    + destruct (Hwf row Hrow Ht Hp) as (k' & Hk' & Hnum). exists k'. split; [lia|exact Hnum].
    + exists k. split; [lia|exact Hn].
  - intros row Hrow Hp. apply in_app_or in Hrow as [Hrow|[<-|[]]].
    + exact (Hown row Hrow Hp).
    + reflexivity.
  - intros m Hm. apply in_app_or in Hm as [Hm|[<-|[]]].
    + destruct (Hin m Hm) as (row & Hrow & Ht & Hnum).
      exists row. split; [apply in_or_app; left; exact Hrow|auto].
    + exists (mkQuoteRow tenant n). split; [apply in_or_app; right; left; reflexivity|auto].
  - apply NoDup_app; [exact Hnd|repeat constructor; intros []|].
    intros m Hm [E|[]]. rewrite <- E in Hm.
    destruct (Hin n Hm) as (row & Hrow & Ht & Hnum).
    exact (Hfresh row Hrow Ht Hnum).
Qed.

Lemma invariant_run (callers : list nat) : forall (bound : Z) (st : state),
  (0 <= bound)%Z -> (bound + Z.of_nat (List.length callers) <= 9999)%Z ->
  invariant bound st ->
  let st' := run now (sequential tenant callers) st in
  invariant (bound + Z.of_nat (List.length callers)) st'
  /\ List.length (numbers_for tenant st')
     = (List.length (numbers_for tenant st) + List.length callers)%nat.
Proof.
  induction callers as [|c callers IH]; intros bound st Hb Hlen Hinv.
  - cbn. rewrite Z.add_0_r, Nat.add_0_r. auto.
  - cbn [List.length] in *. cbv zeta.
    change (run now (sequential tenant (c :: callers)) st)
      with (run now (sequential tenant callers)
              (step now (step now st (Generate c tenant)) (Commit c))).
    destruct (invariant_step bound st c ltac:(lia) Hinv) as [Hinv' Hlen'].
    cbv zeta in Hinv', Hlen'.
    destruct (IH (bound + 1)%Z _ ltac:(lia) ltac:(lia) Hinv') as [H1 H2].
    cbv zeta in H1, H2. split.
    + replace (bound + Z.of_nat (S (List.length callers)))%Z
        with (bound + 1 + Z.of_nat (List.length callers))%Z by lia.
      exact H1.
    + rewrite H2, Hlen'. lia.
Qed.

(** X: callers that generate and commit one after the other are all handed
    different numbers: on a well-numbered table whose numbers of the month
    belong to the tenant, with room below 9999, every caller gets a number,
    the numbers are pairwise distinct, and each is committed. *)
Theorem sequential_numbers_distinct (bound : Z) (table : list QuoteRow)
  (callers : list nat) :
  (0 <= bound)%Z ->
  (bound + Z.of_nat (List.length callers) <= 9999)%Z ->
  well_numbered bound now tenant table ->
  month_owned now tenant table ->
  let st := run now (sequential tenant callers) (initial table) in
  List.length (numbers_for tenant st) = List.length callers
  /\ NoDup (numbers_for tenant st)
  /\ (forall n, In n (numbers_for tenant st) ->
        exists row, In row (QuoteNumber.table st) /\ tenant_id row = tenant
                    /\ quote_number row = n).
Proof.
  intros Hb Hlen Hwf Hown. cbv zeta.
  assert (Hinv : invariant bound (initial table)).
  { repeat split; [exact Hwf|exact Hown|intros n []|constructor]. }
  destruct (invariant_run callers bound (initial table) Hb Hlen Hinv)
    as [(_ & _ & Hin & Hnd) Hcount].
  cbv zeta in Hin, Hnd, Hcount. auto.
Qed.

End Month.

Lemma generated_number_is_fresh_witness :
  let table := [mkQuoteRow "t1" "Q2026110041"; mkQuoteRow "t2" "Q2026110099";
                mkQuoteRow "t1" "Q2026100077"] in
  let n := generate_quote_number Scenario.now "t1" table in
  (exists k, (1 <= k <= 9999)%Z
             /\ n = prefix_of Scenario.now ++ PyStr.format_0d 4 k)
  /\ (forall row, In row table -> tenant_id row = "t1" ->
        String.prefix (prefix_of Scenario.now) (quote_number row) = true ->
        String.ltb (quote_number row) n = true)
  /\ (forall row, In row table -> tenant_id row = "t1" -> quote_number row <> n).
Proof.
  intros table.
  apply (generated_number_is_fresh Scenario.now "t1" table).
  intros row [<-|[<-|[<-|[]]]] Ht Hp; try discriminate.
  exists 41%Z. split; [lia|reflexivity].
Defined.

Lemma sequential_numbers_distinct_witness :
  let table := [mkQuoteRow "t1" "Q2026110041"; mkQuoteRow "t2" "Q2026100099"] in
  let st := run Scenario.now (sequential "t1" [7; 8; 7]%nat) (initial table) in
  List.length (numbers_for "t1" st) = 3%nat
  /\ NoDup (numbers_for "t1" st)
  /\ (forall n, In n (numbers_for "t1" st) ->
        exists row, In row (QuoteNumber.table st) /\ tenant_id row = "t1"
                    /\ quote_number row = n).
Proof.
  intros table.
  apply (sequential_numbers_distinct Scenario.now "t1" 41 table [7; 8; 7]%nat).
  - lia.
  - cbn. lia.
  - intros row [<-|[<-|[]]] Ht Hp; try discriminate.
    exists 41%Z. split; [lia|reflexivity].
  - intros row [<-|[<-|[]]] Hp; [reflexivity|discriminate].
Defined.

End QuoteNumberMoreFacts.
(* ================================================================= *)
(** ** Rate limiter: properties *)

Module RateLimiterFacts.
Import RateLimiter.

Lemma datetime_eqb_eq (a b : datetime) : datetime_eqb a b = true <-> a = b.
Proof.
  destruct a, b. unfold datetime_eqb. cbn.
  rewrite !andb_true_iff, !Z.eqb_eq. split.
  - intros [[[[[[-> ->] ->] ->] ->] ->] ->]. reflexivity.
  - intros H. injection H as -> -> -> -> -> -> ->. repeat split.
Qed.





Section Key.

Variables (tenant ip endp : string) (w : datetime).





End Key.



Lemma same_hour_sym (a b : datetime) : same_hour a b -> same_hour b a.
Proof. intros (H1 & H2 & H3 & H4). repeat split; congruence. Qed.

Lemma same_hour_trans (a b c : datetime) :
  same_hour a b -> same_hour b c -> same_hour a c.
Proof.
  intros (H1 & H2 & H3 & H4) (G1 & G2 & G3 & G4). repeat split; congruence.
Qed.



Lemma find_pointwise {A : Type} (f g : A -> bool) (l : list A) :
  (forall x, f x = g x) -> find f l = find g l.
Proof.
  intros H. induction l as [|a l IH]; [reflexivity|].
  cbn. rewrite H, IH. reflexivity.
Qed.

(** The row a call reads, said without the code's window start. *)
Lemma counter_at_is_the_lookup (tenant ip endp : string) (now : datetime)
  (table : list RateLimit) :
  find (key_matches tenant ip endp (window_of now)) table
  = counter_at tenant ip endp now table.
Proof.
  unfold counter_at. apply find_pointwise. intros r.
  unfold key_matches, datetime_eqb, window_of. cbn.
  rewrite !andb_assoc. reflexivity.
Qed.

Section Sequential.

Variables (e : env) (tenant ip endp : string) (max_requests : option Z).

Let limit : Z := or_default max_requests RATE_LIMIT_MAX_REQUESTS.
Let nip : string := normalized e ip.

Hypothesis query_ok : query_raises e = false.
Hypothesis commit_ok : commit_raises e = false.
Hypothesis inet_ok : inet_accepts e nip = true.




End Sequential.



(** The default limit: 100 calls allowed, the 101st denied. *)
Example default_limit_is_100 :
  fst (run Scenario.healthy "t1" "10.0.0.7" "/public/quote" None
         (repeat Scenario.now 101) [])
  = repeat true 100 ++ [false].
Proof. vm_compute. reflexivity. Qed.

(** The parser and the column of the scenarios on some texts. *)
Example ipv4_texts :
  map Scenario.is_ipv4
    ["10.0.0.7"; "203.0.113.7"; "255.255.255.255"; "256.0.0.1"; "1.2.3";
     "01.2.3.4"; "1.2.3.4.5"; "203.0.113.7, 10.0.0.1"; ""; "unknown"]%string
  = [true; true; true; false; false; false; false; false; false; false].
Proof. reflexivity. Qed.

(** C9: whenever an internal error occurs in [check_rate_limit] (the lookup
    fails, the IP text is none the database takes, the counter read holds a
    null count, or the commit of the new counter or of the increment fails),
    the function returns allowed: the error is neither turned into a denial
    nor passed on to the caller, and the table stays as it was. *)
Theorem fails_open (e : env) (tenant ip endp : string)
  (max_requests window_minutes : option Z) (now : datetime)
  (table : list RateLimit) :
  internal_error e tenant ip endp
    (or_default max_requests RATE_LIMIT_MAX_REQUESTS) now table ->
  check_rate_limit e tenant ip endp max_requests window_minutes now table
    = (true, table).
Proof.
  intros Herr. unfold check_rate_limit, check_rate_limit_try, query_first, commit.
  fold (normalized e ip). rewrite counter_at_is_the_lookup.
  destruct (query_raises e) eqn:Q; [reflexivity|].
  destruct (inet_accepts e (normalized e ip)) eqn:I; [|reflexivity].
  cbn [bind].
  destruct Herr as [H|H|r Hr Hc|Hcommit Hr|r c Hcommit Hr Hc Hlt];
    try congruence.
  - rewrite Hr, Hc. reflexivity.
  - rewrite Hr, Hcommit. reflexivity.
  - rewrite Hr, Hc, Hcommit.
    destruct (Z.leb_spec (or_default max_requests RATE_LIMIT_MAX_REQUESTS) c);
      [lia|reflexivity].
Qed.

Lemma fails_open_witness :
  let at_start := mkDatetime 2026 11 3 17 0 0 0 in
  let counter c := [mkRateLimit "t1" "10.0.0.7" "/public/quote" c at_start] in
  check_rate_limit Scenario.database_down "t1" "10.0.0.7" "/public/quote"
    None None Scenario.now (counter (Some 100)) = (true, counter (Some 100))
  /\ check_rate_limit Scenario.healthy "t1" "203.0.113.7, 10.0.0.1" "/public/quote"
       None None Scenario.now (counter (Some 100)) = (true, counter (Some 100))
  /\ check_rate_limit Scenario.healthy "t1" "10.0.0.7" "/public/quote"
       None None Scenario.now (counter None) = (true, counter None)
  /\ check_rate_limit Scenario.commit_fails "t1" "10.0.0.7" "/public/quote"
       None None Scenario.now [] = (true, [])
  /\ check_rate_limit Scenario.commit_fails "t1" "10.0.0.7" "/public/quote"
       None None Scenario.now (counter (Some 7)) = (true, counter (Some 7)).
Proof.
  intros at_start counter.
  refine (conj _ (conj _ (conj _ (conj _ _)))).
  - apply fails_open. apply lookup_fails. reflexivity.
  - apply fails_open. apply ip_rejected. reflexivity.
  - apply fails_open.
    apply (null_count _ _ _ _ _ _ _
             (mkRateLimit "t1" "10.0.0.7" "/public/quote" None at_start));
      reflexivity.
  - apply fails_open. apply insert_fails; reflexivity.
  - apply fails_open.
    apply (increment_fails _ _ _ _ _ _ _
             (mkRateLimit "t1" "10.0.0.7" "/public/quote" (Some 7) at_start) 7);
      reflexivity.
Defined.

(** A call is denied only when nothing failed on the way to the counter and
    the count read is at or above the limit. *)
Lemma denied_only_at_limit (e : env) (tenant ip endp : string)
  (max_requests window_minutes : option Z) (now : datetime)
  (table : list RateLimit) :
  fst (check_rate_limit e tenant ip endp max_requests window_minutes now table)
    = false <->
  query_raises e = false
  /\ inet_accepts e (normalized e ip) = true
  /\ exists r c,
       counter_at tenant (normalized e ip) endp now table = Some r
       /\ request_count r = Some c
       /\ or_default max_requests RATE_LIMIT_MAX_REQUESTS <= c.
Proof.
  unfold check_rate_limit, check_rate_limit_try, query_first, commit.
  fold (normalized e ip). rewrite counter_at_is_the_lookup.
  destruct (query_raises e); [cbn; split; [discriminate|intros [H _]; discriminate]|].
  destruct (inet_accepts e (normalized e ip));
    [|cbn; split; [discriminate|intros (_ & H & _); discriminate]].
  cbn [bind].
  destruct (counter_at tenant (normalized e ip) endp now table) as [r|].
  - destruct (request_count r) as [c|] eqn:C.
    + destruct (Z.leb_spec (or_default max_requests RATE_LIMIT_MAX_REQUESTS) c).
      * cbn. split; [|reflexivity]. intros _. repeat split.
        exists r, c. auto.
      * assert (Hallowed :
          fst (match bind (if commit_raises e then Raise DatabaseError
                           else Ok (set_count tenant (normalized e ip) endp
                                      (window_of now) (c + 1) table))
                       (fun table' => Ok (true, table')) with
               | Ok x => x
               | Raise _ => (true, table)
               end) = true) by (destruct (commit_raises e); reflexivity).
        rewrite Hallowed. split; [discriminate|].
        intros (_ & _ & r' & c' & Hr & Hc & Hle).
        injection Hr as <-. rewrite C in Hc. injection Hc as <-. lia.
    + cbn. split; [discriminate|].
      intros (_ & _ & r' & c' & Hr & Hc & _).
      injection Hr as <-. congruence.
  - assert (Hallowed :
      fst (match bind (if commit_raises e then Raise DatabaseError
                       else Ok (table ++ [mkRateLimit tenant (normalized e ip)
                                            endp (Some 1) (window_of now)]))
                   (fun table' => Ok (true, table')) with
           | Ok x => x
           | Raise _ => (true, table)
           end) = true) by (destruct (commit_raises e); reflexivity).
    rewrite Hallowed. split; [discriminate|].
    intros (_ & _ & r' & c' & Hr & _). discriminate.
Qed.

End RateLimiterFacts.


(* ================================================================= *)
(** ** Rate limiter status, reset and cleanup: properties *)

Module RateLimiterOpsFacts.
Import RateLimiter RateLimiterOps RateLimiterFacts.

Lemma plus_window_some (d : datetime) :
  year d < 9999 -> exists d', plus_window d = Some d'.
Proof.
  intros Hy. unfold plus_window.
  destruct (hour d <? 23); [eauto|].
  destruct (day d <? days_in_month (year d) (month d)); [eauto|].
  destruct (month d <? 12); [eauto|].
  destruct (Z.ltb_spec (year d) 9999); [eauto|lia].
Qed.

Lemma key_matches_window_start (tenant ip endp : string) (w : datetime) (r : RateLimit) :
  key_matches tenant ip endp w r = true -> window_start r = w.
Proof.
  unfold key_matches. rewrite !andb_true_iff. intros [_ H].
  now apply datetime_eqb_eq.
Qed.

(** The decision of [check_rate_limit] depends on the table only through
    the count stored for the key and window. *)
Lemma check_decision_by_stored_count (e : env) (tenant ip endp : string)
  (max_requests window_minutes : option Z) (now : datetime)
  (t1 t2 : list RateLimit) :
  stored_count tenant (normalized e ip) endp (window_of now) t1
  = stored_count tenant (normalized e ip) endp (window_of now) t2 ->
  fst (check_rate_limit e tenant ip endp max_requests window_minutes now t1)
  = fst (check_rate_limit e tenant ip endp max_requests window_minutes now t2).
Proof.
  unfold stored_count, check_rate_limit, check_rate_limit_try, query_first, commit.
  fold (normalized e ip).
  destruct (query_raises e); [reflexivity|].
  destruct (inet_accepts e (normalized e ip)); [|reflexivity]. cbn [bind].
  destruct (find _ t1) as [r1|], (find _ t2) as [r2|]; cbn; try discriminate.
  - intros H. injection H as ->. destruct (request_count r2) as [c|]; [|reflexivity].
    destruct (_ <=? c); [reflexivity|]. destruct (commit_raises e); reflexivity.
  - intros _. destruct (commit_raises e); reflexivity.
Qed.

(** under the default limit, the status tells what the limiter will
    decide: the next call is allowed exactly when requests_remaining is
    positive, whatever the table holds and whether or not the database
    works. *)
Theorem status_predicts_decision (e : env) (tenant ip endp : string)
  (now : datetime) (table : list RateLimit) :
  year now < 9999 ->
  fst (check_rate_limit e tenant ip endp None None now table)
  = (0 <? requests_remaining (get_rate_limit_status e tenant ip endp now table)).
Proof.
  intros Hy.
  destruct (plus_window_some (window_of now) Hy) as [wend Hend].
  unfold check_rate_limit, check_rate_limit_try, get_rate_limit_status, status_try,
    query_first, commit.
  fold (normalized e ip).
  destruct (query_raises e); [reflexivity|].
  destruct (inet_accepts e (normalized e ip)); [|reflexivity]. cbn [bind].
  destruct (find (key_matches tenant (normalized e ip) endp (window_of now)) table)
    as [row|] eqn:F.
  - apply find_some in F as [_ F].
    rewrite (key_matches_window_start _ _ _ _ _ F), Hend.
    destruct (request_count row) as [c|]; [|reflexivity].
    cbn [or_default requests_remaining]. unfold RATE_LIMIT_MAX_REQUESTS.
    destruct (Z.leb_spec 100 c).
    + cbn [fst requests_remaining]. symmetry. apply Z.ltb_ge. lia.
    + destruct (commit_raises e); cbn [bind fst requests_remaining];
        symmetry; apply Z.ltb_lt; lia.
  - rewrite Hend. destruct (commit_raises e); reflexivity.
Qed.

Lemma status_predicts_decision_witness :
  let full := [mkRateLimit "t1" "10.0.0.7" "/public/quote" (Some 100)
                 (mkDatetime 2026 11 3 17 0 0 0)] in
  fst (check_rate_limit Scenario.healthy "t1" "10.0.0.7" "/public/quote"
         None None Scenario.now full)
  = (0 <? requests_remaining
            (get_rate_limit_status Scenario.healthy "t1" "10.0.0.7" "/public/quote"
               Scenario.now full)).
Proof.
  intros full.
  apply (status_predicts_decision Scenario.healthy "t1" "10.0.0.7" "/public/quote"
           Scenario.now full).
  reflexivity.
Defined.

Section Sequential.

Variables (e : env) (tenant ip endp : string) (max_requests : option Z).
Let limit : Z := or_default max_requests RATE_LIMIT_MAX_REQUESTS.
Let nip : string := normalized e ip.

Hypothesis query_ok : query_raises e = false.
Hypothesis commit_ok : commit_raises e = false.
Hypothesis inet_ok : inet_accepts e nip = true.



End Sequential.



Lemma find_filter_kept {A : Type} (g keep : A -> bool) (l : list A) :
  (forall x, g x = true -> keep x = true) ->
  find g (filter keep l) = find g l.
Proof.
  intros H. induction l as [|a l IH]; [reflexivity|]. cbn.
  destruct (keep a) eqn:K; cbn.
  - destruct (g a); [reflexivity|exact IH].
  - destruct (g a) eqn:G; [|exact IH]. rewrite (H a G) in K. discriminate.
Qed.





(** The cutoff of the cleanup lies before the window of the same moment. *)
Lemma window_not_before_cutoff (now cutoff : datetime) :
  minus_24_hours now = Some cutoff ->
  datetime_ltb (window_of now) cutoff = false.
Proof.
  unfold minus_24_hours, datetime_ltb, with_date.
  destruct (Z.ltb_spec 1 (day now)) as [Hd|Hd].
  - intros H. injection H as <-. cbn.
    rewrite Z.ltb_irrefl, Z.eqb_refl, Z.ltb_irrefl, Z.eqb_refl. cbn.
    replace (day now <? day now - 1) with false by (symmetry; apply Z.ltb_ge; lia).
    replace (day now =? day now - 1) with false by (symmetry; apply Z.eqb_neq; lia).
    reflexivity.
  - destruct (Z.ltb_spec 1 (month now)) as [Hm|Hm].
    + intros H. injection H as <-. cbn.
      rewrite Z.ltb_irrefl, Z.eqb_refl. cbn.
      replace (month now <? month now - 1) with false by (symmetry; apply Z.ltb_ge; lia).
      replace (month now =? month now - 1) with false by (symmetry; apply Z.eqb_neq; lia).
      reflexivity.
    + destruct (Z.ltb_spec 1 (year now)) as [Hy|Hy]; [|discriminate].
      intros H. injection H as <-. cbn.
      replace (year now <? year now - 1) with false by (symmetry; apply Z.ltb_ge; lia).
      replace (year now =? year now - 1) with false by (symmetry; apply Z.eqb_neq; lia).
      reflexivity.
Qed.

(** a cleanup leaves the counter of the window it runs in alone: for
    every key, a request made at the time of the cleanup gets the decision it
    would have got without it, whether or not the cleanup succeeds. *)
Theorem cleanup_keeps_current_window (e e' : env) (now : datetime)
  (table : list RateLimit) (tenant ip endp : string)
  (max_requests : option Z) :
  let table' := snd (cleanup_old_rate_limits e now table) in
  stored_count tenant (normalized e' ip) endp (window_of now) table'
  = stored_count tenant (normalized e' ip) endp (window_of now) table
  /\ fst (check_rate_limit e' tenant ip endp max_requests None now table')
     = fst (check_rate_limit e' tenant ip endp max_requests None now table).
Proof.
  cbv zeta.
  assert (H : stored_count tenant (normalized e' ip) endp (window_of now)
                (snd (cleanup_old_rate_limits e now table))
              = stored_count tenant (normalized e' ip) endp (window_of now) table).
  { unfold cleanup_old_rate_limits, commit.
    destruct (minus_24_hours now) as [cutoff|] eqn:C; [|reflexivity].
    destruct (query_raises e); [reflexivity|].
    destruct (commit_raises e); [reflexivity|]. cbn [snd].
    unfold stored_count. rewrite find_filter_kept; [reflexivity|].
    intros r Hr. apply negb_true_iff.
    rewrite (key_matches_window_start _ _ _ _ _ Hr).
    now apply window_not_before_cutoff. }
  split; [exact H|]. apply check_decision_by_stored_count, H.
Qed.

(** What a successful cleanup removes: exactly the rows whose window
    started before the cutoff. *)
Lemma cleanup_removes_old_rows (e : env) (now cutoff : datetime)
  (table : list RateLimit) (r : RateLimit) :
  query_raises e = false -> commit_raises e = false ->
  minus_24_hours now = Some cutoff ->
  (In r (snd (cleanup_old_rate_limits e now table))
   <-> In r table /\ datetime_ltb (window_start r) cutoff = false).
Proof.
  intros Hq Hc Hcut. unfold cleanup_old_rate_limits, commit.
  rewrite Hcut, Hq, Hc. cbn [snd]. rewrite filter_In, negb_true_iff. reflexivity.
Qed.

End RateLimiterOpsFacts.
